(** * me-gpt: provider adapters, dispatcher, session and configuration

    A shallow embedding of the Python sources under [agent/] and the
    properties of the specification proved (or refuted) on it.

    - [Py]          the Python values and operators the sources use
    - [Config]      agent/config.py
    - [Base]        agent/providers/base.py
    - [Http]        the one HTTP exchange of an adapter (httpx)
    - [OpenAI]      agent/providers/openai.py
    - [Anthropic]   agent/providers/anthropic.py (modelled from the spec)
    - [HTTPAdapter] agent/providers/http_adapter.py
    - [Session]     agent/session.py
    - [SessionStore] agent/session.py again, with lists and messages as objects
    - [Cli]         agent/cli.py: [get_provider], [init] and the call pipeline
    - [MockMCP]     dev/mock_mcp/server.py *)

From Stdlib Require Import ZArith String Ascii Floats DecimalString.
From stdpp Require Import gmap strings list fin_maps sorting.

Set Warnings "-register-all".

Local Open Scope string_scope.
Local Open Scope Z_scope.

(** ** Python values, exceptions and operators *)

Module Py.

(** What [response.json()] and [yaml.safe_load] hand to the program, and what
    the program builds as a request payload: [None], [bool], [int] (unbounded),
    [float] (binary64), [str], [list] and [dict] with [str] keys.  A [str] is
    a sequence of bytes here; [lower] below therefore folds ASCII letters only. *)
Inductive pyval : Type :=
| PNone
| PBool (b : bool)
| PInt (z : Z)
| PFloat (f : float)
| PStr (s : string)
| PList (l : list pyval)
| PDict (m : gmap string pyval).

(** The exceptions the modelled code can raise.  [HTTPError] stands for every
    failure of the exchange itself (transport, status, body that is not JSON),
    [YAMLError] for a configuration file that does not parse. *)
Inductive exn : Type :=
| KeyError (k : pyval)
| IndexError
| TypeError
| AttributeError
| OverflowError
| ValueError (msg : string)
| ValidationError
| HTTPError
| YAMLError.

Inductive result (A : Type) : Type :=
| Ok (a : A)
| Raise (e : exn).
Arguments Ok {A} a.
Arguments Raise {A} e.

#[global] Instance result_ret : MRet result := @Ok.
#[global] Instance result_bind : MBind result :=
  fun A B f x => match x with Ok a => f a | Raise e => Raise e end.
#[global] Instance result_fmap : FMap result :=
  fun A B f x => match x with Ok a => Ok (f a) | Raise e => Raise e end.

(** Truth value testing, [bool(x)]. *)
Class Truthy (A : Type) := truthy : A -> bool.

Definition str_truthy (s : string) : bool :=
  match s with EmptyString => false | String _ _ => true end.

#[global] Instance pyval_truthy : Truthy pyval := fun v =>
  match v with
  | PNone => false
  | PBool b => b
  | PInt z => negb (z =? 0)
  | PFloat f => negb (PrimFloat.eqb f PrimFloat.zero)
  | PStr s => str_truthy s
  | PList l => match l with [] => false | _ :: _ => true end
  | PDict m => negb (bool_decide (m = ∅))
  end.

#[global] Instance str_Truthy : Truthy string := str_truthy.
#[global] Instance int_Truthy : Truthy Z := fun z => negb (z =? 0).

(** An [Optional[T]]: [None] is false, a value is as true as it is. *)
#[global] Instance option_truthy {A} `{Truthy A} : Truthy (option A) := fun o =>
  match o with None => false | Some a => truthy a end.

(** [x or y]. *)
Definition py_or {A} `{Truthy A} (x y : A) : A := if truthy x then x else y.

(** [x or d] where [x] is an [Optional[T]] and [d] a [T]. *)
Definition or_default {A} `{Truthy A} (x : option A) (d : A) : A :=
  match x with
  | Some a => if truthy a then a else d
  | None => d
  end.

(** [d.get(key, default)]: only a dict has the method. *)
Definition get (d : pyval) (key : string) (dflt : pyval) : result pyval :=
  match d with
  | PDict m => Ok (default dflt (m !! key))
  | _ => Raise AttributeError
  end.

(** [v[key]] for a [str] key. *)
Definition getitem (v : pyval) (key : string) : result pyval :=
  match v with
  | PDict m =>
      match m !! key with Some x => Ok x | None => Raise (KeyError (PStr key)) end
  | _ => Raise TypeError
  end.

(** Python's index normalisation: [i] counts from the end when negative. *)
Definition norm_index (len i : Z) : option nat :=
  if (0 <=? i) && (i <? len) then Some (Z.to_nat i)
  else if (i <? 0) && (- len <=? i) then Some (Z.to_nat (len + i))
  else None.

Fixpoint str_nth (s : string) (n : nat) : option ascii :=
  match s, n with
  | EmptyString, _ => None
  | String c _, O => Some c
  | String _ t, S n' => str_nth t n'
  end.

(** [v[i]] for an [int] index.  The keys of a decoded dict are strings, so an
    integer key is never found. *)
Definition getitem_int (v : pyval) (i : Z) : result pyval :=
  match v with
  | PList l =>
      match norm_index (Z.of_nat (length l)) i ≫= fun n => l !! n with
      | Some x => Ok x
      | None => Raise IndexError
      end
  | PStr s =>
      match norm_index (Z.of_nat (String.length s)) i ≫= str_nth s with
      | Some c => Ok (PStr (String c EmptyString))
      | None => Raise IndexError
      end
  | PDict _ => Raise (KeyError (PInt i))
  | _ => Raise TypeError
  end.

(** [float(z)] for an [int]: the nearest binary64 (ties to even), or
    [OverflowError] when that is out of range. *)
Definition float_of_int (z : Z) : result float :=
  match binary_normalize prec emax z 0 false with
  | S754_infinity _ => Raise OverflowError
  | sf => Ok (SF2Prim sf)
  end.

Definition as_int (v : pyval) : option Z :=
  match v with
  | PInt z => Some z
  | PBool b => Some (if b then 1 else 0)
  | _ => None
  end.

(** [x + y]: numbers add (a [bool] counts as an [int]), [str] and [list]
    concatenate, anything else is a [TypeError]. *)
Definition add (x y : pyval) : result pyval :=
  match as_int x, as_int y with
  | Some a, Some b => Ok (PInt (a + b))
  | Some a, None =>
      match y with
      | PFloat g => f ← float_of_int a; Ok (PFloat (PrimFloat.add f g))
      | _ => Raise TypeError
      end
  | None, Some b =>
      match x with
      | PFloat f => g ← float_of_int b; Ok (PFloat (PrimFloat.add f g))
      | _ => Raise TypeError
      end
  | None, None =>
      match x, y with
      | PFloat f, PFloat g => Ok (PFloat (PrimFloat.add f g))
      | PStr s, PStr t => Ok (PStr (s +:+ t))
      | PList l, PList k => Ok (PList (l ++ k))
      | _, _ => Raise TypeError
      end
  end.

(** [str.lower()] on ASCII. *)
Definition lower_ascii (c : ascii) : ascii :=
  let n := N_of_ascii c in
  if ((65 <=? n) && (n <=? 90))%N then ascii_of_N (n + 32) else c.

Fixpoint lower (s : string) : string :=
  match s with
  | EmptyString => EmptyString
  | String c t => String (lower_ascii c) (lower t)
  end.

(** [needle in hay] for two strings. *)
Fixpoint contains (needle hay : string) : bool :=
  String.prefix needle hay ||
  match hay with
  | EmptyString => false
  | String _ t => contains needle t
  end.

(** What [contains] decides: [needle] occurs somewhere in [hay]. *)
Definition substring (needle hay : string) : Prop :=
  exists a b, hay = a +:+ needle +:+ b.

(** What the specification calls a case-insensitive match, said without
    [lower]: two characters are the same letter when they are equal or one is
    a capital A to Z and the other its small letter, two strings are the same
    ignoring case when they are so character by character, and [needle]
    occurs in [hay] ignoring case when a part of [hay] is the same as
    [needle] ignoring case. *)
Definition is_capital (c : ascii) : bool :=
  ((65 <=? N_of_ascii c) && (N_of_ascii c <=? 90))%N.

Definition small_of (c : ascii) : ascii := ascii_of_N (N_of_ascii c + 32).

Inductive same_letter : ascii -> ascii -> Prop :=
| same_letter_refl (c : ascii) : same_letter c c
| same_letter_capital (c : ascii) :
    is_capital c = true -> same_letter c (small_of c)
| same_letter_small (c : ascii) :
    is_capital c = true -> same_letter (small_of c) c.

Inductive same_ignoring_case : string -> string -> Prop :=
| same_ignoring_case_nil : same_ignoring_case EmptyString EmptyString
| same_ignoring_case_cons (c d : ascii) (s t : string) :
    same_letter c d -> same_ignoring_case s t ->
    same_ignoring_case (String c s) (String d t).

Definition occurs_ignoring_case (needle hay : string) : Prop :=
  exists a x b, hay = a +:+ x +:+ b /\ same_ignoring_case x needle.

(** A token count read from a usage dict, a missing one counted as 0: what
    [usage.get(key, 0)] gives. *)
Definition count (usage : gmap string pyval) (key : string) : pyval :=
  default (PInt 0) (usage !! key).

(** An [Optional[str]] inside an f-string. *)
Definition fmt_opt (o : option string) : string := default "None" o.

Definition of_opt_str (o : option string) : pyval :=
  match o with Some s => PStr s | None => PNone end.

Definition of_opt_int (o : option Z) : pyval :=
  match o with Some z => PInt z | None => PNone end.

(** [str.isspace()].  A [str] is the bytes of its UTF-8 encoding: a white
    space character is one byte (tab to carriage return, the four
    separators, the space), two (U+0085, U+00A0) or three (U+1680, U+2000 to
    U+200A, U+2028, U+2029, U+202F, U+205F, U+3000). *)
Definition is_space (c : ascii) : bool :=
  let n := N_of_ascii c in
  (((9 <=? n) && (n <=? 13)) || ((28 <=? n) && (n <=? 32)))%N.

(** The first byte of a white space character of two or three bytes. *)
Definition is_space_lead (c : ascii) : bool :=
  let n := N_of_ascii c in
  ((n =? 194) || (n =? 225) || (n =? 226) || (n =? 227))%N.

Definition is_space2 (c d : ascii) : bool :=
  let n := N_of_ascii c in
  let m := N_of_ascii d in
  ((n =? 194) && ((m =? 133) || (m =? 160)))%N.

Definition is_space3 (c d e : ascii) : bool :=
  let n := N_of_ascii c in
  let m := N_of_ascii d in
  let k := N_of_ascii e in
  (((n =? 225) && (m =? 154) && (k =? 128))
   || ((n =? 226) && (m =? 128)
       && (((128 <=? k) && (k <=? 138)) || (k =? 168) || (k =? 169) || (k =? 175)))
   || ((n =? 226) && (m =? 129) && (k =? 159))
   || ((n =? 227) && (m =? 128) && (k =? 128)))%N.

(** The words read so far end with [word], if it is one. *)
Definition flush (word : string) (rest : list string) : list string :=
  if str_truthy word then word :: rest else rest.

(** [s.split()]: the words of [s], the maximal runs without white space;
    [word] is the word being read. *)
Fixpoint split_from (word s : string) : list string :=
  match s with
  | EmptyString => flush word []
  | String c t =>
      if is_space c then flush word (split_from EmptyString t)
      else if is_space_lead c then
        match t with
        | String d t' =>
            if is_space2 c d then flush word (split_from EmptyString t')
            else
              match t' with
              | String e t'' =>
                  if is_space3 c d e then flush word (split_from EmptyString t'')
                  else split_from (word +:+ String c EmptyString) t
              | EmptyString => split_from (word +:+ String c EmptyString) t
              end
        | EmptyString => split_from (word +:+ String c EmptyString) t
        end
      else split_from (word +:+ String c EmptyString) t
  end.

Definition split (s : string) : list string := split_from EmptyString s.

(** An [int] inside an f-string: its decimal writing. *)
Definition fmt_int (z : Z) : string := NilZero.string_of_int (Z.to_int z).

(** The line feed of ["\n"]. *)
Definition nl : string := String (ascii_of_nat 10) EmptyString.

End Py.

(** ** agent/config.py *)

Module Config.
Import Py.

Record ProviderConfig : Type := {
  base_url : string;
  api_key_env : option string;
  model : option string;
  max_tokens : option Z;
  timeout : Z
}.

Record AgentConfig : Type := {
  default_provider : string;
  providers : gmap string ProviderConfig
}.

(** [os.getenv] reads the process environment. *)
Definition getenv (env : gmap string string) (name : string) : option string :=
  env !! name.

Definition get_api_key (self : ProviderConfig) (env : gmap string string)
  : option string :=
  match api_key_env self with
  | Some name => if truthy name then getenv env name else None
  | None => None
  end.

(** [cls()]: every field at its default. *)
Definition AgentConfig_default : AgentConfig :=
  {| default_provider := "openai"; providers := ∅ |}.

Definition get_config_path (home : string) : string :=
  home +:+ "/.config/agent/config.yaml".

Definition get_provider (self : AgentConfig) (name : option string)
  : option ProviderConfig :=
  let provider_name := or_default name (default_provider self) in
  providers self !! provider_name.

Definition create_default_config : AgentConfig :=
  {| default_provider := "openai";
     providers :=
       <["openai" :=
           {| base_url := "https://api.openai.com";
              api_key_env := Some "OPENAI_API_KEY";
              model := Some "gpt-4";
              max_tokens := Some 1024;
              timeout := 60 |}]>
       (<["anthropic" :=
           {| base_url := "https://api.anthropic.com";
              api_key_env := Some "ANTHROPIC_API_KEY";
              model := Some "claude-3-5-sonnet-20241022";
              max_tokens := Some 1024;
              timeout := 60 |}]>
       (<["local_mcp" :=
           {| base_url := "http://localhost:8080";
              api_key_env := None;
              model := Some "local-model";
              max_tokens := Some 1024;
              timeout := 60 |}]> ∅)) |}.

(** The message of the [ValueError] that the constructors of the OpenAI-style
    and Anthropic-style adapters raise. *)
Definition missing_key_message (pc : ProviderConfig) : string :=
  "API key not found. Set environment variable: " +:+ fmt_opt (api_key_env pc).

(** *** pydantic: [model_dump] and the validation behind [cls] applied to the loaded data *)

Definition ProviderConfig_dump (p : ProviderConfig) : pyval :=
  PDict (<["base_url" := PStr (base_url p)]>
        (<["api_key_env" := of_opt_str (api_key_env p)]>
        (<["model" := of_opt_str (model p)]>
        (<["max_tokens" := of_opt_int (max_tokens p)]>
        (<["timeout" := PInt (timeout p)]> ∅))))).

Definition model_dump (self : AgentConfig) : pyval :=
  PDict (<["default_provider" := PStr (default_provider self)]>
        (<["providers" := PDict (ProviderConfig_dump <$> providers self)]> ∅)).

(** A [str] field takes a [str] only. *)
Definition validate_str (v : pyval) : result string :=
  match v with PStr s => Ok s | _ => Raise ValidationError end.

(** pydantic is a library.  A value of the field's own type is taken as it
    is; whether a value of another type is converted (a numeric string or an
    integral float for an [int] field, say) or refused is pydantic's, and is
    a parameter here: [None] is a refusal, which raises the validation
    error. *)
Record conversions : Type := {
  to_int : pyval -> option Z;
  to_bool : pyval -> option bool;
  to_float : pyval -> option float
}.

Definition converted {A} (o : option A) : result A :=
  match o with Some a => Ok a | None => Raise ValidationError end.

Definition validate_int (lax : conversions) (v : pyval) : result Z :=
  match v with PInt z => Ok z | _ => converted (to_int lax v) end.

(** A field that is absent takes its default; [Optional] also takes [None]. *)
Definition field {A} (m : gmap string pyval) (key : string)
    (validate : pyval -> result A) (dflt : result A) : result A :=
  match m !! key with
  | Some v => validate v
  | None => dflt
  end.

Definition optional {A} (validate : pyval -> result A) (v : pyval)
  : result (option A) :=
  match v with PNone => Ok None | _ => Some <$> validate v end.

Definition ProviderConfig_validate (lax : conversions) (v : pyval)
  : result ProviderConfig :=
  match v with
  | PDict m =>
      u ← field m "base_url" validate_str (Raise ValidationError);
      k ← field m "api_key_env" (optional validate_str) (Ok None);
      mo ← field m "model" (optional validate_str) (Ok None);
      mt ← field m "max_tokens" (optional (validate_int lax)) (Ok None);
      t ← field m "timeout" (validate_int lax) (Ok 60);
      Ok {| base_url := u; api_key_env := k; model := mo;
            max_tokens := mt; timeout := t |}
  | _ => Raise ValidationError
  end.

(** [Dict[str, ProviderConfig]]: every value is validated, the first failure
    ends the validation. *)
Definition validate_providers (lax : conversions) (v : pyval)
  : result (gmap string ProviderConfig) :=
  match v with
  | PDict m =>
      map_fold
        (fun k x acc => ps ← acc; p ← ProviderConfig_validate lax x;
                        Ok (<[k := p]> ps))
        (Ok ∅) m
  | _ => Raise ValidationError
  end.

(** [cls] applied to the keys of [data]: [data] has to be a mapping; keys that name no field are
    ignored. *)
Definition AgentConfig_new (lax : conversions) (data : pyval)
  : result AgentConfig :=
  match data with
  | PDict m =>
      d ← field m "default_provider" validate_str (Ok "openai");
      ps ← field m "providers" (validate_providers lax) (Ok ∅);
      Ok {| default_provider := d; providers := ps |}
  | _ => Raise TypeError
  end.

(** *** [load] and [save]

    The files are a map from path to content.  PyYAML is a library: its text
    format is not embedded, [safe_dump] and [safe_load] are the section's
    variables, and what a theorem needs of them is its hypothesis. *)
Section Storage.
Context {text : Type}.
Variable safe_dump : pyval -> text.
Variable safe_load : text -> result pyval.
Variable lax : conversions.

Definition load (fs : gmap string text) (home : string)
    (config_path : option string) : result AgentConfig :=
  let config_path := default (get_config_path home) config_path in
  match fs !! config_path with
  | None => Ok AgentConfig_default
  | Some f =>
      loaded ← safe_load f;
      let data := py_or loaded (PDict ∅) in
      AgentConfig_new lax data
  end.

Definition save (self : AgentConfig) (fs : gmap string text) (home : string)
    (config_path : option string) : gmap string text :=
  let config_path := default (get_config_path home) config_path in
  <[config_path := safe_dump (model_dump self)]> fs.

End Storage.

End Config.

(** ** agent/providers/base.py *)

Module Base.
Import Py.

Record TokenUsage : Type := {
  prompt_tokens : pyval;
  completion_tokens : pyval;
  total_tokens : pyval
}.

Record CompletionResult : Type := {
  id : pyval;
  text : pyval;
  model : pyval;
  usage : option TokenUsage
}.

End Base.

(** ** The HTTP exchange *)

Module Http.
Import Py.

Record Request : Type := {
  url : string;
  json : gmap string pyval;
  headers : list (string * string);
  timeout : Z
}.

(** [client.post(...)], [raise_for_status()] and [response.json()] taken
    together: the decoded body, or the exception of whichever step failed. *)
Definition transport : Type := Request -> result pyval.

End Http.

(** ** agent/providers/openai.py *)

Module OpenAI.
Import Py.

Record OpenAIProvider : Type := {
  config : Config.ProviderConfig;
  api_key : option string
}.

Definition __init__ (config : Config.ProviderConfig) (env : gmap string string)
  : result OpenAIProvider :=
  let api_key := Config.get_api_key config env in
  if negb (truthy api_key) then
    Raise (ValueError ("API key not found. Set environment variable: "
                       +:+ fmt_opt (Config.api_key_env config)))
  else Ok {| config := config; api_key := api_key |}.

Definition payload (self : OpenAIProvider) (prompt : string)
    (model : option string) (max_tokens : option Z)
    (temperature : option float) : gmap string pyval :=
  let payload : gmap string pyval :=
    <["model" :=
        PStr (or_default (py_or model (Config.model (config self))) "gpt-4o-mini")]>
    (<["messages" :=
        PList [PDict (<["role" := PStr "user"]> (<["content" := PStr prompt]> ∅))]]>
    (<["max_tokens" :=
        PInt (or_default (py_or max_tokens (Config.max_tokens (config self))) 1024)]>
     ∅)) in
  match temperature with
  | Some t => <["temperature" := PFloat t]> payload
  | None => payload
  end.

Definition request (self : OpenAIProvider) (prompt : string)
    (model : option string) (max_tokens : option Z)
    (temperature : option float) : Http.Request :=
  {| Http.url := Config.base_url (config self) +:+ "/v1/chat/completions";
     Http.json := payload self prompt model max_tokens temperature;
     Http.headers :=
       [("Authorization", "Bearer " +:+ fmt_opt (api_key self));
        ("Content-Type", "application/json")];
     Http.timeout := Config.timeout (config self) |}.

(** The part of [complete] after the exchange: from the decoded body to the
    result. *)
Definition parse (data : pyval) : result Base.CompletionResult :=
  choices ← getitem data "choices";
  choice ← getitem_int choices 0;
  message ← getitem choice "message";
  text ← getitem message "content";
  usage_data ← get data "usage" (PDict ∅);
  pt ← get usage_data "prompt_tokens" (PInt 0);
  ct ← get usage_data "completion_tokens" (PInt 0);
  tt ← get usage_data "total_tokens" (PInt 0);
  let usage := {| Base.prompt_tokens := pt; Base.completion_tokens := ct;
                  Base.total_tokens := tt |} in
  i ← getitem data "id";
  m ← getitem data "model";
  Ok {| Base.id := i; Base.text := text; Base.model := m;
        Base.usage := Some usage |}.

(** The usage dict [um] that [parse] reads in the body [m]: the body's
    [usage], or an empty dict when the body has none. *)
Definition usage_data (m um : gmap string pyval) : Prop :=
  (m !! "usage" = None /\ um = ∅) \/ m !! "usage" = Some (PDict um).

Definition complete (send : Http.transport) (self : OpenAIProvider)
    (prompt : string) (model : option string) (max_tokens : option Z)
    (temperature : option float) : result Base.CompletionResult :=
  data ← send (request self prompt model max_tokens temperature);
  parse data.

End OpenAI.

(** ** agent/providers/anthropic.py *)

Module Anthropic.
Import Py.

Record AnthropicProvider : Type := {
  config : Config.ProviderConfig;
  api_key : option string
}.

(** Modelled from the spec: the constructor of agent/providers/anthropic.py,
    a file of the repository that is not among the sources.  Section 4.3
    gives it "the same fail-fast credential precondition as 4.2", and
    tests/test_providers.py expects a [ValueError] matching
    "API key not found". *)
Definition __init__ (config : Config.ProviderConfig) (env : gmap string string)
  : result AnthropicProvider :=
  let api_key := Config.get_api_key config env in
  if negb (truthy api_key) then
    Raise (ValueError ("API key not found. Set environment variable: "
                       +:+ fmt_opt (Config.api_key_env config)))
  else Ok {| config := config; api_key := api_key |}.

(** Modelled from the spec: the response mapping of the Anthropic adapter
    (agent/providers/anthropic.py is not among the sources).  Section 4.3:
    the text is the first content block's text; [id] and [model] are echoed;
    the usage is computed from [input_tokens] and [output_tokens], the total
    being their sum.  Section 3: the usage is absent if the vendor omits
    usage data.  A missing count is taken as 0, as in the two adapters of the
    sources. *)
Definition parse (data : pyval) : result Base.CompletionResult :=
  content ← getitem data "content";
  block ← getitem_int content 0;
  text ← getitem block "text";
  usage ←
    match data with
    | PDict m =>
        match m !! "usage" with
        | None => Ok None
        | Some usage_data =>
            it ← get usage_data "input_tokens" (PInt 0);
            ot ← get usage_data "output_tokens" (PInt 0);
            tt ← add it ot;
            Ok (Some {| Base.prompt_tokens := it; Base.completion_tokens := ot;
                        Base.total_tokens := tt |})
        end
    | _ => Raise AttributeError
    end;
  i ← getitem data "id";
  m ← getitem data "model";
  Ok {| Base.id := i; Base.text := text; Base.model := m; Base.usage := usage |}.

(** Modelled from the spec: the request of section 4.3 and the table of
    section 6: POST to [/v1/messages] with [model], one user message and
    [max_tokens] (override, else config default, else 1024), [temperature]
    only if supplied.  The spec names no fallback model and no header names:
    the model is the override else the config default, and the credential
    goes in an [x-api-key] header. *)
Definition request (self : AnthropicProvider) (prompt : string)
    (model : option string) (max_tokens : option Z)
    (temperature : option float) : Http.Request :=
  let payload : gmap string pyval :=
    <["model" := of_opt_str (py_or model (Config.model (config self)))]>
    (<["messages" :=
        PList [PDict (<["role" := PStr "user"]> (<["content" := PStr prompt]> ∅))]]>
    (<["max_tokens" :=
        PInt (or_default (py_or max_tokens (Config.max_tokens (config self))) 1024)]>
     ∅)) in
  {| Http.url := Config.base_url (config self) +:+ "/v1/messages";
     Http.json := match temperature with
                  | Some t => <["temperature" := PFloat t]> payload
                  | None => payload
                  end;
     Http.headers := [("x-api-key", fmt_opt (api_key self));
                      ("Content-Type", "application/json")];
     Http.timeout := Config.timeout (config self) |}.

Definition complete (send : Http.transport) (self : AnthropicProvider)
    (prompt : string) (model : option string) (max_tokens : option Z)
    (temperature : option float) : result Base.CompletionResult :=
  data ← send (request self prompt model max_tokens temperature);
  parse data.

End Anthropic.

(** ** agent/providers/http_adapter.py *)

Module HTTPAdapter.
Import Py.

Record HTTPProvider : Type := {
  config : Config.ProviderConfig
}.

Definition __init__ (config : Config.ProviderConfig) : result HTTPProvider :=
  Ok {| config := config |}.

Definition payload (self : HTTPProvider) (prompt : string)
    (model : option string) (max_tokens : option Z)
    (temperature : option float) : gmap string pyval :=
  let payload : gmap string pyval :=
    <["model" :=
        PStr (or_default (py_or model (Config.model (config self))) "default")]>
    (<["input" := PStr prompt]>
    (<["max_tokens" :=
        PInt (or_default (py_or max_tokens (Config.max_tokens (config self))) 1024)]>
    (<["stream" := PBool false]> ∅))) in
  match temperature with
  | Some t => <["temperature" := PFloat t]> payload
  | None => payload
  end.

Definition request (self : HTTPProvider) (prompt : string)
    (model : option string) (max_tokens : option Z)
    (temperature : option float) : Http.Request :=
  {| Http.url := Config.base_url (config self) +:+ "/v1/completions";
     Http.json := payload self prompt model max_tokens temperature;
     Http.headers := [("Content-Type", "application/json")];
     Http.timeout := Config.timeout (config self) |}.

(** The usage of the result: [None] unless [token_usage] is there and true. *)
Definition parse_usage (data : pyval) : result (option Base.TokenUsage) :=
  usage_data ← get data "token_usage" (PDict ∅);
  if truthy usage_data then
    p ← get usage_data "prompt" (PInt 0);
    c ← get usage_data "completion" (PInt 0);
    p' ← get usage_data "prompt" (PInt 0);
    c' ← get usage_data "completion" (PInt 0);
    t ← add p' c';
    Ok (Some {| Base.prompt_tokens := p; Base.completion_tokens := c;
                Base.total_tokens := t |})
  else Ok None.

(** The part of [complete] after the exchange; [payload] is the request's. *)
Definition parse (payload : gmap string pyval) (data : pyval)
  : result Base.CompletionResult :=
  text ← get data "output" (PStr "");
  usage ← parse_usage data;
  i ← get data "id" (PStr "unknown");
  m ← getitem (PDict payload) "model";
  Ok {| Base.id := i; Base.text := text; Base.model := m; Base.usage := usage |}.

Definition complete (send : Http.transport) (self : HTTPProvider)
    (prompt : string) (model : option string) (max_tokens : option Z)
    (temperature : option float) : result Base.CompletionResult :=
  let req := request self prompt model max_tokens temperature in
  data ← send req;
  parse (Http.json req) data.

End HTTPAdapter.

(** ** agent/session.py *)

Module Session.
Import Py.

Record Message : Type := {
  role : string;
  content : string
}.

Record Session : Type := {
  messages : list Message
}.

(** [Session()]: the default factory gives an empty list. *)
Definition new : Session := {| messages := [] |}.

Definition add_user_message (self : Session) (content : string) : Session :=
  {| messages := messages self ++ [{| role := "user"; content := content |}] |}.

Definition add_assistant_message (self : Session) (content : string) : Session :=
  {| messages := messages self ++ [{| role := "assistant"; content := content |}] |}.

Definition get_history (self : Session) : list Message := messages self.

Definition clear (self : Session) : Session := {| messages := [] |}.

Definition format_for_display (self : Session) : string :=
  let lines :=
    map (fun msg =>
           let prefix := if String.eqb (role msg) "user" then "User:"
                         else "Assistant:" in
           prefix +:+ " " +:+ content msg)
        (messages self) in
  String.concat nl lines.

(** A call of one of the two appending methods, and a sequence of them run
    on a session from left to right. *)
Inductive call : Type :=
| AddUser (content : string)
| AddAssistant (content : string).

Definition step (self : Session) (c : call) : Session :=
  match c with
  | AddUser s => add_user_message self s
  | AddAssistant s => add_assistant_message self s
  end.

Definition run (calls : list call) (self : Session) : Session :=
  fold_left step calls self.

(** What the specification says of each call: the message it appends and the
    line it is displayed as. *)
Definition message_of (c : call) : Message :=
  match c with
  | AddUser s => {| role := "user"; content := s |}
  | AddAssistant s => {| role := "assistant"; content := s |}
  end.

Definition line_of (c : call) : string :=
  match c with
  | AddUser s => "User: " +:+ s
  | AddAssistant s => "Assistant: " +:+ s
  end.

End Session.

(** ** agent/session.py, with Python's objects

    [Session] above keeps the list of a session as a value.  In Python the
    list is an object that several names may share, and so is each
    [Message]: this second embedding has a store of list objects, whose items
    are references, and of message objects, and the methods as functions on
    the store.  It is the one to read [get_history]'s copy on. *)

Module SessionStore.
Import Py.

Record store : Type := {
  lists : gmap positive (list positive);
  objects : gmap positive Session.Message
}.

(** A session object: its [messages] attribute refers to a list, and no
    method assigns the attribute again. *)
Record Session : Type := {
  messages : positive
}.

(** [Message(role=..., content=...)]: a new object. *)
Definition Message_new (st : store) (role content : string) : store * positive :=
  let m := fresh (dom (objects st)) in
  ({| lists := lists st;
      objects := <[m := {| Session.role := role; Session.content := content |}]>
                   (objects st) |}, m).

(** [l.append(x)], [l.clear()] and [l.copy()] on the list object [l]. *)
Definition list_append (st : store) (l x : positive) : store :=
  {| lists := alter (fun items => (items ++ [x])%list) l (lists st);
     objects := objects st |}.

Definition list_clear (st : store) (l : positive) : store :=
  {| lists := alter (fun _ => []) l (lists st); objects := objects st |}.

Definition list_copy (st : store) (l : positive) : store * positive :=
  let l' := fresh (dom (lists st)) in
  ({| lists := <[l' := default [] (lists st !! l)]> (lists st);
      objects := objects st |}, l').

(** [msg.content = content]: what a holder of a message can do to it. *)
Definition set_content (st : store) (m : positive) (content : string) : store :=
  {| lists := lists st;
     objects := alter (fun msg => {| Session.role := Session.role msg;
                                     Session.content := content |})
                      m (objects st) |}.

(** [Session()]. *)
Definition new (st : store) : store * Session :=
  let l := fresh (dom (lists st)) in
  ({| lists := <[l := []]> (lists st); objects := objects st |},
   {| messages := l |}).

Definition add_user_message (st : store) (self : Session) (content : string)
  : store :=
  let '(st, m) := Message_new st "user" content in
  list_append st (messages self) m.

Definition add_assistant_message (st : store) (self : Session) (content : string)
  : store :=
  let '(st, m) := Message_new st "assistant" content in
  list_append st (messages self) m.

Definition get_history (st : store) (self : Session) : store * positive :=
  list_copy st (messages self).

Definition clear (st : store) (self : Session) : store :=
  list_clear st (messages self).

(** The messages a list object holds, read through its references. *)
Definition items (st : store) (l : positive) : list Session.Message :=
  omap (fun m => objects st !! m) (default [] (lists st !! l)).

(** The session as [Session.Session] sees it. *)
Definition view (st : store) (self : Session) : Session.Session :=
  {| Session.messages := items st (messages self) |}.

Definition format_for_display (st : store) (self : Session) : string :=
  Session.format_for_display (view st self).

(** Every reference held by a list is to a message of the store. *)
Definition well_formed (st : store) : Prop :=
  forall l refs m, lists st !! l = Some refs -> m ∈ refs -> is_Some (objects st !! m).

End SessionStore.

(** ** agent/cli.py *)

Module Cli.
Import Py.

(** The three implementations of the [Provider] protocol. *)
Inductive Provider : Type :=
| OpenAIProvider (p : OpenAI.OpenAIProvider)
| AnthropicProvider (p : Anthropic.AnthropicProvider)
| HTTPProvider (p : HTTPAdapter.HTTPProvider).

(** A dict lists its keys in the order in which it received them; the finite
    map keeps no such order, so it is a parameter: the position at which
    each name arrived, different names at different positions. *)
Record key_order : Type := {
  position : string -> positive;
  position_inj : forall a b, position a = position b -> a = b
}.

(** [config.providers.keys()], as the error message lists them: the names by
    increasing position. *)
Definition arrived_before (order : key_order) (a b : string) : Prop :=
  (position order a <= position order b)%positive.

#[global] Instance arrived_before_dec (order : key_order) (a b : string)
  : Decision (arrived_before order a b) :=
  decide (position order a <= position order b)%positive.

Definition provider_names (order : key_order) (config : Config.AgentConfig)
  : list string :=
  merge_sort (arrived_before order) (map_to_list (Config.providers config)).*1.

Definition get_provider (order : key_order) (provider_name : string)
    (config : Config.AgentConfig) (env : gmap string string) : result Provider :=
  match Config.get_provider config (Some provider_name) with
  | None =>
      Raise (ValueError ("Provider '" +:+ provider_name
                         +:+ "' not found in config. Available: "
                         +:+ String.concat ", " (provider_names order config)))
  | Some provider_config =>
      let base_url := lower (Config.base_url provider_config) in
      if contains "openai.com" base_url then
        OpenAIProvider <$> OpenAI.__init__ provider_config env
      else if contains "anthropic.com" base_url then
        AnthropicProvider <$> Anthropic.__init__ provider_config env
      else
        HTTPProvider <$> HTTPAdapter.__init__ provider_config
  end.

(** [provider.complete(...)]: the call goes to the adapter behind the
    protocol. *)
Definition complete (send : Http.transport) (provider : Provider)
    (prompt : string) (model : option string) (max_tokens : option Z)
    (temperature : option float) : result Base.CompletionResult :=
  match provider with
  | OpenAIProvider p => OpenAI.complete send p prompt model max_tokens temperature
  | AnthropicProvider p =>
      Anthropic.complete send p prompt model max_tokens temperature
  | HTTPProvider p => HTTPAdapter.complete send p prompt model max_tokens temperature
  end.

(** The steps of [_call] between the loading of the configuration and the
    display of the result: pick the provider, then one completion. *)
Definition call (order : key_order) (send : Http.transport)
    (config : Config.AgentConfig) (env : gmap string string) (prompt : string)
    (provider_name : option string) (model : option string) (max_tokens : option Z)
  : result Base.CompletionResult :=
  let provider_name := or_default provider_name (Config.default_provider config) in
  provider ← get_provider order provider_name config env;
  complete send provider prompt model max_tokens None.

(** The commands that read or write the configuration file; PyYAML and
    pydantic's conversions are the section's, as in [Config]. *)
Section Commands.
Context {text : Type}.
Variable safe_dump : pyval -> text.
Variable safe_load : text -> result pyval.
Variable lax : Config.conversions.
Variable order : key_order.

(** [init]: the file system after the command. *)
Definition init (fs : gmap string text) (home : string)
    (config_path : option string) (force : bool) : gmap string text :=
  let config_path := default (Config.get_config_path home) config_path in
  if bool_decide (is_Some (fs !! config_path)) && negb force then fs
  else
    let config := Config.create_default_config in
    Config.save safe_dump config fs home (Some config_path).

(** [_call]: the result that is displayed, or the exception that is reported
    before the process exits with status 1. *)
Definition _call (send : Http.transport) (fs : gmap string text) (home : string)
    (env : gmap string string) (prompt : string) (provider_name : option string)
    (config_path : option string) (model : option string) (max_tokens : option Z)
  : result Base.CompletionResult :=
  config ← Config.load safe_load lax fs home config_path;
  call order send config env prompt provider_name model max_tokens.

End Commands.

End Cli.

(** ** dev/mock_mcp/server.py *)

Module MockMCP.
Import Py.

Record CompletionRequest : Type := {
  model : string;
  input : string;
  max_tokens : Z;
  stream : bool;
  temperature : option float
}.

Record TokenUsage : Type := {
  prompt : Z;
  completion : Z
}.

Record CompletionResponse : Type := {
  id : string;
  output : string;
  token_usage : TokenUsage
}.

(** [create_completion].  [hash] is Python's hash of a [str], which differs
    from one process to the next. *)
Definition create_completion (hash : string -> Z) (request : CompletionRequest)
  : CompletionResponse :=
  let output := "Mock response to: " +:+ input request in
  let prompt_tokens := Z.of_nat (length (split (input request))) in
  let completion_tokens := Z.of_nat (length (split output)) in
  {| id := "mock-" +:+ fmt_int (hash (input request) mod 10000);
     output := output;
     token_usage := {| prompt := prompt_tokens; completion := completion_tokens |} |}.

(** The body of a request read as a [CompletionRequest], by pydantic: a
    field of its annotated type is taken as it is, the conversions of other
    values are the parameter [lax] of [Config]. *)
Definition optional_float (lax : Config.conversions) (v : pyval)
  : result (option float) :=
  match v with
  | PNone => Ok None
  | PFloat f => Ok (Some f)
  | _ => Some <$> Config.converted (Config.to_float lax v)
  end.

Definition validate_bool (lax : Config.conversions) (v : pyval) : result bool :=
  match v with PBool b => Ok b | _ => Config.converted (Config.to_bool lax v) end.

Definition read_request (lax : Config.conversions) (body : gmap string pyval)
  : result CompletionRequest :=
  m ← Config.field body "model" Config.validate_str (Raise ValidationError);
  i ← Config.field body "input" Config.validate_str (Raise ValidationError);
  mt ← Config.field body "max_tokens" (Config.validate_int lax) (Ok 1024);
  st ← Config.field body "stream" (validate_bool lax) (Ok false);
  t ← Config.field body "temperature" (optional_float lax) (Ok None);
  Ok {| model := m; input := i; max_tokens := mt; stream := st; temperature := t |}.

(** The response as the JSON the client decodes. *)
Definition write_response (r : CompletionResponse) : pyval :=
  PDict (<["id" := PStr (id r)]>
        (<["output" := PStr (output r)]>
        (<["token_usage" :=
            PDict (<["prompt" := PInt (prompt (token_usage r))]>
                  (<["completion" := PInt (completion (token_usage r))]> ∅))]> ∅))).

(** The server reached at [base], as a client sees it through
    [client.post], [raise_for_status] and [response.json]: only a POST to
    [/v1/completions] with a valid body is answered with success. *)
Definition serve (lax : Config.conversions) (hash : string -> Z) (base : string)
  : Http.transport :=
  fun req =>
    if String.eqb (Http.url req) (base +:+ "/v1/completions") then
      match read_request lax (Http.json req) with
      | Ok request => Ok (write_response (create_completion hash request))
      | Raise _ => Raise HTTPError
      end
    else Raise HTTPError.

End MockMCP.

(** ** Fixtures of tests/test_providers.py *)

Module Tests.
Import Py.

Definition openai_config : Config.ProviderConfig :=
  {| Config.base_url := "https://api.openai.com";
     Config.api_key_env := Some "OPENAI_API_KEY";
     Config.model := Some "gpt-4o-mini";
     Config.max_tokens := None;
     Config.timeout := 60 |}.

Definition openai_env : gmap string string := {[ "OPENAI_API_KEY" := "test-key" ]}.

Definition openai_provider : OpenAI.OpenAIProvider :=
  {| OpenAI.config := openai_config; OpenAI.api_key := Some "test-key" |}.

Definition openai_usage : gmap string pyval :=
  <["prompt_tokens" := PInt 10]>
  (<["completion_tokens" := PInt 5]>
  (<["total_tokens" := PInt 15]> ∅)).

Definition openai_message : gmap string pyval :=
  {[ "content" := PStr "Hello, world!" ]}.

Definition openai_choice : gmap string pyval :=
  {[ "message" := PDict openai_message ]}.

Definition openai_response : gmap string pyval :=
  <["id" := PStr "test-123"]>
  (<["model" := PStr "gpt-4o-mini"]>
  (<["choices" := PList [PDict openai_choice]]>
  (<["usage" := PDict openai_usage]> ∅))).

(** The same body without its [usage]. *)
Definition openai_response_no_usage : gmap string pyval :=
  delete "usage" openai_response.

Definition anthropic_config : Config.ProviderConfig :=
  {| Config.base_url := "https://api.anthropic.com";
     Config.api_key_env := Some "ANTHROPIC_API_KEY";
     Config.model := Some "claude-3-haiku-20240307";
     Config.max_tokens := None;
     Config.timeout := 60 |}.

Definition anthropic_provider : Anthropic.AnthropicProvider :=
  {| Anthropic.config := anthropic_config; Anthropic.api_key := Some "test-key" |}.

Definition anthropic_usage : gmap string pyval :=
  <["input_tokens" := PInt 8]> (<["output_tokens" := PInt 3]> ∅).

Definition anthropic_block : gmap string pyval :=
  {[ "text" := PStr "Greetings!" ]}.

Definition anthropic_response : gmap string pyval :=
  <["id" := PStr "test-456"]>
  (<["model" := PStr "claude-3-haiku-20240307"]>
  (<["content" := PList [PDict anthropic_block]]>
  (<["usage" := PDict anthropic_usage]> ∅))).

Definition http_config : Config.ProviderConfig :=
  {| Config.base_url := "http://localhost:8080";
     Config.api_key_env := None;
     Config.model := Some "local-model";
     Config.max_tokens := None;
     Config.timeout := 60 |}.

Definition http_provider : HTTPAdapter.HTTPProvider :=
  {| HTTPAdapter.config := http_config |}.

Definition http_usage : gmap string pyval :=
  <["prompt" := PInt 12]> (<["completion" := PInt 8]> ∅).

Definition http_response : gmap string pyval :=
  <["id" := PStr "local-789"]>
  (<["output" := PStr "Response from local MCP"]>
  (<["token_usage" := PDict http_usage]> ∅)).

(** [ProviderConfig(base_url="https://api.openai.com", api_key_env="MISSING_KEY")]
    in an environment that does not set the variable. *)
Definition missing_key_config : Config.ProviderConfig :=
  {| Config.base_url := "https://api.openai.com";
     Config.api_key_env := Some "MISSING_KEY";
     Config.model := None;
     Config.max_tokens := None;
     Config.timeout := 60 |}.

(** The entry of [create_default_config] for "openai". *)
Definition openai_default_config : Config.ProviderConfig :=
  {| Config.base_url := "https://api.openai.com";
     Config.api_key_env := Some "OPENAI_API_KEY";
     Config.model := Some "gpt-4";
     Config.max_tokens := Some 1024;
     Config.timeout := 60 |}.

(** A provider whose base URL is in capitals, and one on a domain of neither
    vendor that has a credential configured. *)
Definition capitals_provider : Config.ProviderConfig :=
  {| Config.base_url := "HTTPS://API.OPENAI.COM/";
     Config.api_key_env := Some "OPENAI_API_KEY";
     Config.model := None;
     Config.max_tokens := None;
     Config.timeout := 60 |}.

Definition capitals_config : Config.AgentConfig :=
  {| Config.default_provider := "capitals";
     Config.providers := {[ "capitals" := capitals_provider ]} |}.

Definition proxy_provider : Config.ProviderConfig :=
  {| Config.base_url := "https://llm.example.org";
     Config.api_key_env := Some "OPENAI_API_KEY";
     Config.model := None;
     Config.max_tokens := None;
     Config.timeout := 60 |}.

Definition proxy_config : Config.AgentConfig :=
  {| Config.default_provider := "proxy";
     Config.providers := {[ "proxy" := proxy_provider ]} |}.

(** A store with nothing in it, a session made in it, and that session
    after [add_user_message("Hello")]. *)
Definition empty_store : SessionStore.store :=
  {| SessionStore.lists := ∅; SessionStore.objects := ∅ |}.

Definition fresh_session : SessionStore.store * SessionStore.Session :=
  SessionStore.new empty_store.

Definition hello_store : SessionStore.store :=
  SessionStore.add_user_message fresh_session.1 fresh_session.2 "Hello".

(** pydantic refusing every value that is not of the field's type, and the
    names in the order of their codes. *)
Definition strict : Config.conversions :=
  {| Config.to_int := fun _ => None;
     Config.to_bool := fun _ => None;
     Config.to_float := fun _ => None |}.

Definition by_code : Cli.key_order :=
  {| Cli.position := encode;
     Cli.position_inj := fun a b H => encode_inj a b H |}.

(** A transport that answers every request with the same body. *)
Definition respond (body : gmap string pyval) : Http.transport :=
  fun _ => Ok (PDict body).

End Tests.

(** * Properties *)

Import Py.

(** ** The error monad *)

Lemma bind_Ok {A B} (f : A -> result B) (a : A) : (Ok a ≫= f) = f a.
Proof. reflexivity. Qed.

Lemma bind_Raise {A B} (f : A -> result B) (e : exn) : (Raise e ≫= f) = Raise e.
Proof. reflexivity. Qed.

Lemma bind_Ok_inv {A B} (f : A -> result B) (x : result A) (b : B) :
  (x ≫= f) = Ok b -> exists a, x = Ok a /\ f a = Ok b.
Proof. destruct x as [a|e]; simpl; [eauto | discriminate]. Qed.

(** ** Session (C7) *)

Lemma run_messages (calls : list Session.call) (s : Session.Session) :
  Session.messages (Session.run calls s)
  = (Session.messages s ++ map Session.message_of calls)%list.
Proof.
  revert s. induction calls as [|c calls IH]; intros s; simpl.
  - by rewrite app_nil_r.
  - unfold Session.run in IH. rewrite IH.
    destruct c; simpl; by rewrite <- app_assoc.
Qed.

Lemma display_line_of (c : Session.call) :
  (if String.eqb (Session.role (Session.message_of c)) "user"
   then "User:" else "Assistant:")
  +:+ " " +:+ Session.content (Session.message_of c)
  = Session.line_of c.
Proof. destruct c; reflexivity. Qed.

(** C7. After any sequence of [add_user_message] and [add_assistant_message]
    calls on a fresh session, [get_history] is exactly the appended messages
    in call order, each with the role of the method that added it, and
    [format_for_display] is the lines "User: <content>" or
    "Assistant: <content>" joined by line feeds in the same order; after
    [add_user_message("Hello")] and [add_assistant_message("Hi there!")] the
    history is those two messages and the display is
    "User: Hello\nAssistant: Hi there!". *)
Theorem session_history_in_call_order :
  (forall calls : list Session.call,
     Session.get_history (Session.run calls Session.new)
     = map Session.message_of calls
     /\ Session.format_for_display (Session.run calls Session.new)
        = String.concat nl (map Session.line_of calls))
  /\ Session.get_history
       (Session.add_assistant_message
          (Session.add_user_message Session.new "Hello") "Hi there!")
     = [ {| Session.role := "user"; Session.content := "Hello" |};
         {| Session.role := "assistant"; Session.content := "Hi there!" |} ]
  /\ Session.format_for_display
       (Session.add_assistant_message
          (Session.add_user_message Session.new "Hello") "Hi there!")
     = "User: Hello" +:+ nl +:+ "Assistant: Hi there!".
Proof.
  split; [|split; reflexivity].
  intros calls. unfold Session.get_history, Session.format_for_display.
  rewrite run_messages. simpl. split; [reflexivity|].
  f_equal. rewrite map_map. apply map_ext. intros c. apply display_line_of.
Qed.

(** ** The defaulting cascade (C10) *)




Lemma or_default_int (o : option Z) (d : Z) :
  or_default o d
  = match o with
    | Some z => if z =? 0 then d else z
    | None => d
    end.
Proof. destruct o as [z|]; [|reflexivity]. unfold or_default, truthy, int_Truthy.
  by destruct (z =? 0). Qed.

Lemma openai_payload_model self prompt model max_tokens temperature :
  OpenAI.payload self prompt model max_tokens temperature !! "model"
  = Some (PStr (or_default (py_or model (Config.model (OpenAI.config self)))
                           "gpt-4o-mini")).
Proof. unfold OpenAI.payload. destruct temperature; by simplify_map_eq. Qed.

Lemma openai_payload_max_tokens self prompt model max_tokens temperature :
  OpenAI.payload self prompt model max_tokens temperature !! "max_tokens"
  = Some (PInt (or_default (py_or max_tokens (Config.max_tokens (OpenAI.config self)))
                           1024)).
Proof. unfold OpenAI.payload. destruct temperature; by simplify_map_eq. Qed.

Lemma http_payload_model self prompt model max_tokens temperature :
  HTTPAdapter.payload self prompt model max_tokens temperature !! "model"
  = Some (PStr (or_default (py_or model (Config.model (HTTPAdapter.config self)))
                           "default")).
Proof. unfold HTTPAdapter.payload. destruct temperature; by simplify_map_eq. Qed.

Lemma http_payload_max_tokens self prompt model max_tokens temperature :
  HTTPAdapter.payload self prompt model max_tokens temperature !! "max_tokens"
  = Some (PInt (or_default
                  (py_or max_tokens (Config.max_tokens (HTTPAdapter.config self)))
                  1024)).
Proof. unfold HTTPAdapter.payload. destruct temperature; by simplify_map_eq. Qed.


(** ** Substrings and the dispatcher (C3) *)

Lemma prefix_append (n h : string) :
  String.prefix n h = true <-> exists b, h = n +:+ b.
Proof.
  revert h. induction n as [|c n IH]; intros [|d h]; simpl.
  - split; [intros _; by exists "" | done].
  - split; [intros _; by exists (String d h) | done].
  - split; [done | intros [b Hb]; discriminate].
  - destruct (Ascii.ascii_dec c d) as [->|Hne].
    + rewrite IH. split; intros [b Hb]; exists b; [by rewrite Hb | by injection Hb].
    + split; [done | intros [b Hb]; injection Hb; congruence].
Qed.

Lemma contains_nil (n : string) : contains n "" = String.prefix n "" || false.
Proof. reflexivity. Qed.

Lemma contains_cons (n : string) (d : ascii) (h : string) :
  contains n (String d h) = String.prefix n (String d h) || contains n h.
Proof. reflexivity. Qed.

Lemma contains_substring (n h : string) :
  contains n h = true <-> substring n h.
Proof.
  unfold substring. induction h as [|d h IH].
  - rewrite contains_nil, orb_false_r, prefix_append. split.
    + intros [b Hb]. by exists "", b.
    + intros ([|? a] & b & Hab); [by exists b | discriminate].
  - rewrite contains_cons, orb_true_iff, prefix_append, IH. split.
    + intros [[b Hb] | (a & b & Hab)].
      * by exists "", b.
      * exists (String d a), b. simpl. by rewrite Hab.
    + intros ([|c a] & b & Hab).
      * left. by exists b.
      * right. exists a, b. simpl in Hab. by injection Hab.
Qed.

(** The two outcomes of the constructors that need a credential. *)

Lemma openai_init_no_key pc env :
  Config.get_api_key pc env = None \/ Config.get_api_key pc env = Some "" ->
  OpenAI.__init__ pc env = Raise (ValueError (Config.missing_key_message pc)).
Proof. unfold OpenAI.__init__. by intros [-> | ->]. Qed.

Lemma openai_init_key pc env c s :
  Config.get_api_key pc env = Some (String c s) ->
  OpenAI.__init__ pc env
  = Ok {| OpenAI.config := pc; OpenAI.api_key := Some (String c s) |}.
Proof. unfold OpenAI.__init__. by intros ->. Qed.

Lemma anthropic_init_no_key pc env :
  Config.get_api_key pc env = None \/ Config.get_api_key pc env = Some "" ->
  Anthropic.__init__ pc env = Raise (ValueError (Config.missing_key_message pc)).
Proof. unfold Anthropic.__init__. by intros [-> | ->]. Qed.

Lemma anthropic_init_key pc env c s :
  Config.get_api_key pc env = Some (String c s) ->
  Anthropic.__init__ pc env
  = Ok {| Anthropic.config := pc; Anthropic.api_key := Some (String c s) |}.
Proof. unfold Anthropic.__init__. by intros ->. Qed.

Lemma get_provider_dispatch {order : Cli.key_order} name config env pc :
  Config.get_provider config (Some name) = Some pc ->
  Cli.get_provider order name config env
  = if contains "openai.com" (lower (Config.base_url pc)) then
      Cli.OpenAIProvider <$> OpenAI.__init__ pc env
    else if contains "anthropic.com" (lower (Config.base_url pc)) then
      Cli.AnthropicProvider <$> Anthropic.__init__ pc env
    else Ok (Cli.HTTPProvider {| HTTPAdapter.config := pc |}).
Proof. intros H. unfold Cli.get_provider. by rewrite H. Qed.

(** *** Letter case: [lower] against the specification's words *)

Lemma lower_app (a b : string) : lower (a +:+ b) = lower a +:+ lower b.
Proof. induction a as [|c a IH]; simpl; [reflexivity | by rewrite IH]. Qed.

Lemma lower_ascii_capital (c : ascii) :
  is_capital c = true -> lower_ascii c = small_of c.
Proof. unfold lower_ascii, is_capital, small_of. by intros ->. Qed.

Lemma lower_ascii_other (c : ascii) :
  is_capital c = false -> lower_ascii c = c.
Proof. unfold lower_ascii, is_capital. by intros ->. Qed.

Lemma small_of_not_capital (c : ascii) :
  is_capital c = true -> is_capital (small_of c) = false.
Proof.
  unfold is_capital, small_of. intros H.
  apply andb_true_iff in H as [H1 H2].
  apply N.leb_le in H1, H2.
  rewrite N_ascii_embedding by lia.
  apply andb_false_iff. right. apply N.leb_gt. lia.
Qed.

Lemma same_letter_lower (c d : ascii) :
  same_letter c d -> lower_ascii c = lower_ascii d.
Proof.
  intros [c'|c' H|c' H]; [reflexivity| |].
  - by rewrite (lower_ascii_capital _ H),
               (lower_ascii_other _ (small_of_not_capital _ H)).
  - by rewrite (lower_ascii_capital _ H),
               (lower_ascii_other _ (small_of_not_capital _ H)).
Qed.

Lemma lower_ascii_same_letter (c : ascii) : same_letter c (lower_ascii c).
Proof.
  destruct (is_capital c) eqn:H.
  - rewrite (lower_ascii_capital _ H). by constructor.
  - rewrite (lower_ascii_other _ H). constructor.
Qed.

Lemma same_ignoring_case_lower (x y : string) :
  same_ignoring_case x y -> lower x = lower y.
Proof.
  induction 1 as [|c d s t Hcd _ IH]; [reflexivity|]. simpl.
  by rewrite (same_letter_lower _ _ Hcd), IH.
Qed.

Lemma lower_same_ignoring_case (x : string) : same_ignoring_case x (lower x).
Proof.
  induction x as [|c x IH]; simpl; constructor;
    [apply lower_ascii_same_letter | exact IH].
Qed.

Lemma lower_app_inv (s u v : string) :
  lower s = u +:+ v ->
  exists s1 s2, s = s1 +:+ s2 /\ lower s1 = u /\ lower s2 = v.
Proof.
  revert s. induction u as [|c u IH]; intros s H.
  - by exists "", s.
  - destruct s as [|d s]; [discriminate|].
    simpl in H. injection H as Hc H.
    destruct (IH s H) as (s1 & s2 & -> & <- & <-).
    exists (String d s1), s2. simpl. by rewrite Hc.
Qed.

(** [contains needle (lower hay)], which is how the source tests, says that
    [needle] occurs in [hay] ignoring case, for a needle in small letters. *)
Lemma contains_lower_ignoring_case (needle hay : string) :
  lower needle = needle ->
  contains needle (lower hay) = true <-> occurs_ignoring_case needle hay.
Proof.
  intros Hneedle. rewrite contains_substring. split.
  - intros (a' & b' & H).
    apply lower_app_inv in H as (a & rest & -> & <- & H).
    apply lower_app_inv in H as (x & b & -> & <- & <-).
    exists a, x, b. split; [reflexivity|]. apply lower_same_ignoring_case.
  - intros (a & x & b & -> & Hx). apply same_ignoring_case_lower in Hx.
    exists (lower a), (lower b). by rewrite !lower_app, Hx, Hneedle.
Qed.

(** C3. For a configured provider the dispatcher picks the adapter by a
    case-insensitive substring match on the base URL, in this order: if
    "openai.com" occurs in the URL, in any mix of capitals and small letters,
    the provider is the OpenAI-style adapter's construction (whatever else
    the URL contains, so OpenAI wins over Anthropic); otherwise, if
    "anthropic.com" so occurs, the Anthropic-style adapter's; otherwise the
    generic adapter.  With a credential that resolves, the construction
    returns the adapter. *)
Theorem dispatcher_selects_by_base_url (order : Cli.key_order) name config env pc :
  Config.get_provider config (Some name) = Some pc ->
  (occurs_ignoring_case "openai.com" (Config.base_url pc) ->
   Cli.get_provider order name config env
   = Cli.OpenAIProvider <$> OpenAI.__init__ pc env)
  /\ (~ occurs_ignoring_case "openai.com" (Config.base_url pc) ->
      occurs_ignoring_case "anthropic.com" (Config.base_url pc) ->
      Cli.get_provider order name config env
      = Cli.AnthropicProvider <$> Anthropic.__init__ pc env)
  /\ (~ occurs_ignoring_case "openai.com" (Config.base_url pc) ->
      ~ occurs_ignoring_case "anthropic.com" (Config.base_url pc) ->
      Cli.get_provider order name config env
      = Ok (Cli.HTTPProvider {| HTTPAdapter.config := pc |}))
  /\ (forall c s,
        Config.get_api_key pc env = Some (String c s) ->
        (occurs_ignoring_case "openai.com" (Config.base_url pc) ->
         Cli.get_provider order name config env
         = Ok (Cli.OpenAIProvider
                 {| OpenAI.config := pc; OpenAI.api_key := Some (String c s) |}))
        /\ (~ occurs_ignoring_case "openai.com" (Config.base_url pc) ->
            occurs_ignoring_case "anthropic.com" (Config.base_url pc) ->
            Cli.get_provider order name config env
            = Ok (Cli.AnthropicProvider
                    {| Anthropic.config := pc;
                       Anthropic.api_key := Some (String c s) |}))).
Proof.
  intros H. rewrite (get_provider_dispatch _ _ env _ H).
  assert (Ho : contains "openai.com" (lower (Config.base_url pc)) = true
               <-> occurs_ignoring_case "openai.com" (Config.base_url pc))
    by (by apply contains_lower_ignoring_case).
  assert (Ha : contains "anthropic.com" (lower (Config.base_url pc)) = true
               <-> occurs_ignoring_case "anthropic.com" (Config.base_url pc))
    by (by apply contains_lower_ignoring_case).
  destruct (contains "openai.com" (lower (Config.base_url pc))) eqn:Eo;
    destruct (contains "anthropic.com" (lower (Config.base_url pc))) eqn:Ea.
  all: split; [|split; [|split]].
  all: try (intros c s Hkey;
            rewrite ?(openai_init_key _ _ _ _ Hkey),
                    ?(anthropic_init_key _ _ _ _ Hkey);
            split).
  all: try reflexivity.
  all: intros; try reflexivity;
    repeat match goal with
           | Hn : ~ occurs_ignoring_case _ _ |- _ =>
               first [ destruct Hn; apply Ho; reflexivity
                     | destruct Hn; apply Ha; reflexivity
                     | clear Hn ]
           | Hp : occurs_ignoring_case "openai.com" _ |- _ =>
               apply Ho in Hp; first [discriminate Hp | clear Hp]
           | Hp : occurs_ignoring_case "anthropic.com" _ |- _ =>
               apply Ha in Hp; first [discriminate Hp | clear Hp]
           end; try reflexivity.
Qed.

Lemma dispatcher_selects_by_base_url_witness :
  Config.get_provider Tests.capitals_config (Some "capitals")
  = Some Tests.capitals_provider
  /\ occurs_ignoring_case "openai.com" "HTTPS://API.OPENAI.COM/"
  /\ Cli.get_provider Tests.by_code "capitals" Tests.capitals_config Tests.openai_env
     = Ok (Cli.OpenAIProvider
             {| OpenAI.config := Tests.capitals_provider;
                OpenAI.api_key := Some "test-key" |}).
Proof.
  assert (Hcfg : Config.get_provider Tests.capitals_config (Some "capitals")
                 = Some Tests.capitals_provider) by reflexivity.
  assert (Hocc : occurs_ignoring_case "openai.com"
                   (Config.base_url Tests.capitals_provider)).
  { exists "HTTPS://API.", "OPENAI.COM", "/". split; [reflexivity|].
    apply (lower_same_ignoring_case "OPENAI.COM"). }
  split; [exact Hcfg|]. split; [exact Hocc|].
  exact (proj1 (proj2 (proj2 (proj2
           (dispatcher_selects_by_base_url Tests.by_code "capitals"
              Tests.capitals_config Tests.openai_env Tests.capitals_provider
              Hcfg)))
           "t"%char "est-key" eq_refl) Hocc).
Defined.

(** The priority at work: a URL that contains both domains, in capitals. *)
Example dispatcher_openai_wins :
  Cli.get_provider Tests.by_code "both"
    {| Config.default_provider := "both";
       Config.providers :=
         {[ "both" := {| Config.base_url := "https://Anthropic.com.proxy.OpenAI.COM";
                         Config.api_key_env := Some "OPENAI_API_KEY";
                         Config.model := None; Config.max_tokens := None;
                         Config.timeout := 60 |} ]} |}
    Tests.openai_env
  = Ok (Cli.OpenAIProvider
          {| OpenAI.config :=
               {| Config.base_url := "https://Anthropic.com.proxy.OpenAI.COM";
                  Config.api_key_env := Some "OPENAI_API_KEY";
                  Config.model := None; Config.max_tokens := None;
                  Config.timeout := 60 |};
             OpenAI.api_key := Some "test-key" |}).
Proof. vm_compute. reflexivity. Qed.

(** ** Construction and the credential (C4) *)

Lemma get_api_key_unset pc env name :
  Config.api_key_env pc = Some name ->
  Config.getenv env name = None ->
  Config.get_api_key pc env = None.
Proof. unfold Config.get_api_key. intros -> H. rewrite H. by destruct (truthy name). Qed.

Lemma or_default_idem (o : option string) (d : string) :
  or_default (Some (or_default o d)) d = or_default o d.
Proof. destruct o as [[|c s]|]; simpl; by destruct d. Qed.

Lemma call_get_provider config provider_name :
  Config.get_provider config
    (Some (or_default provider_name (Config.default_provider config)))
  = Config.get_provider config provider_name.
Proof. unfold Config.get_provider. by rewrite or_default_idem. Qed.

(** C4. When the credential variable of the configuration does not resolve
    to a secret ([get_api_key] gives nothing, or an empty string), the
    construction of the OpenAI-style and of the Anthropic-style adapter
    raises the missing-credential error (a [ValueError], "API key not
    found..."), and a call through the dispatcher ends in that error whatever
    the transport would answer: the exchange is never reached.  The
    construction of the generic adapter succeeds for every configuration. *)
Theorem construction_fails_fast_without_credential :
  (forall pc env,
     Config.get_api_key pc env = None \/ Config.get_api_key pc env = Some "" ->
     OpenAI.__init__ pc env = Raise (ValueError (Config.missing_key_message pc))
     /\ Anthropic.__init__ pc env = Raise (ValueError (Config.missing_key_message pc))
     /\ (forall order send config prompt provider_name model max_tokens,
           Config.get_provider config provider_name = Some pc ->
           substring "openai.com" (lower (Config.base_url pc))
           \/ substring "anthropic.com" (lower (Config.base_url pc)) ->
           Cli.call order send config env prompt provider_name model max_tokens
           = Raise (ValueError (Config.missing_key_message pc))))
  /\ (forall pc, HTTPAdapter.__init__ pc = Ok {| HTTPAdapter.config := pc |}).
Proof.
  split; [|reflexivity].
  intros pc env Hkey.
  split; [by apply openai_init_no_key|].
  split; [by apply anthropic_init_no_key|].
  intros order send config prompt provider_name model max_tokens Hpc Hurl.
  unfold Cli.call.
  rewrite (get_provider_dispatch _ _ env pc)
    by (by rewrite call_get_provider).
  rewrite <- !contains_substring in Hurl.
  rewrite (openai_init_no_key _ _ Hkey), (anthropic_init_no_key _ _ Hkey).
  destruct (contains "openai.com" _); [reflexivity|].
  destruct (contains "anthropic.com" _); [reflexivity|].
  destruct Hurl; discriminate.
Qed.

Lemma construction_fails_fast_without_credential_witness :
  Config.get_api_key Tests.missing_key_config ∅ = None
  /\ OpenAI.__init__ Tests.missing_key_config ∅
     = Raise (ValueError "API key not found. Set environment variable: MISSING_KEY")
  /\ Anthropic.__init__ Tests.missing_key_config ∅
     = Raise (ValueError "API key not found. Set environment variable: MISSING_KEY").
Proof.
  assert (H : Config.get_api_key Tests.missing_key_config ∅ = None)
    by reflexivity.
  split; [exact H|].
  destruct (proj1 construction_fails_fast_without_credential
              Tests.missing_key_config ∅ (or_introl H)) as (Ho & Ha & _).
  split; [exact Ho | exact Ha].
Defined.

(** ** The OpenAI-style response mapping (C1) *)

Lemma getitem_int_head (x : pyval) (l : list pyval) :
  getitem_int (PList (x :: l)) 0 = Ok x.
Proof.
  unfold getitem_int, norm_index.
  replace (0 <? Z.of_nat (length (x :: l))) with true
    by (symmetry; apply Z.ltb_lt; simpl; lia).
  reflexivity.
Qed.

Lemma getitem_Some (m : gmap string pyval) (key : string) (v : pyval) :
  m !! key = Some v -> getitem (PDict m) key = Ok v.
Proof. unfold getitem. by intros ->. Qed.

Lemma get_dict (m : gmap string pyval) (key : string) (d : pyval) :
  get (PDict m) key d = Ok (default d (m !! key)).
Proof. reflexivity. Qed.

Lemma openai_parse_well_formed m rest cm mm content i mo um :
  m !! "choices" = Some (PList (PDict cm :: rest)) ->
  cm !! "message" = Some (PDict mm) ->
  mm !! "content" = Some content ->
  m !! "id" = Some i ->
  m !! "model" = Some mo ->
  OpenAI.usage_data m um ->
  OpenAI.parse (PDict m)
  = Ok {| Base.id := i; Base.text := content; Base.model := mo;
          Base.usage :=
            Some {| Base.prompt_tokens := count um "prompt_tokens";
                    Base.completion_tokens := count um "completion_tokens";
                    Base.total_tokens := count um "total_tokens" |} |}.
Proof.
  intros Hch Hmsg Hcontent Hid Hmodel Husage. unfold OpenAI.parse.
  rewrite (getitem_Some _ _ _ Hch), bind_Ok, getitem_int_head, bind_Ok.
  rewrite (getitem_Some _ _ _ Hmsg), bind_Ok.
  rewrite (getitem_Some _ _ _ Hcontent), bind_Ok.
  rewrite get_dict, bind_Ok.
  assert (default (PDict ∅) (m !! "usage") = PDict um) as ->
    by (destruct Husage as [[-> ->] | ->]; reflexivity).
  rewrite !get_dict, !bind_Ok.
  by rewrite (getitem_Some _ _ _ Hid), bind_Ok, (getitem_Some _ _ _ Hmodel), bind_Ok.
Qed.

(** C1. For a well-formed OpenAI-style body (a dict with [id], [model], a
    [choices] list whose first element holds [message.content], and a [usage]
    dict or none), [complete] returns the result whose text is the first
    choice's message content, whose id and model are the body's, and whose
    usage holds the body's [prompt_tokens], [completion_tokens] and
    [total_tokens], a missing one being 0.  For the body of the test,
    the result has id "test-123", text "Hello, world!", model "gpt-4o-mini"
    and a total of 15. *)
Theorem openai_complete_maps_response :
  (forall send self prompt model max_tokens temperature
          m rest cm mm content i mo um,
     send (OpenAI.request self prompt model max_tokens temperature) = Ok (PDict m) ->
     m !! "choices" = Some (PList (PDict cm :: rest)) ->
     cm !! "message" = Some (PDict mm) ->
     mm !! "content" = Some content ->
     m !! "id" = Some i ->
     m !! "model" = Some mo ->
     OpenAI.usage_data m um ->
     OpenAI.complete send self prompt model max_tokens temperature
     = Ok {| Base.id := i; Base.text := content; Base.model := mo;
             Base.usage :=
               Some {| Base.prompt_tokens := count um "prompt_tokens";
                       Base.completion_tokens := count um "completion_tokens";
                       Base.total_tokens := count um "total_tokens" |} |})
  /\ (forall send self prompt model max_tokens temperature,
        send (OpenAI.request self prompt model max_tokens temperature)
        = Ok (PDict Tests.openai_response) ->
        OpenAI.complete send self prompt model max_tokens temperature
        = Ok {| Base.id := PStr "test-123"; Base.text := PStr "Hello, world!";
                Base.model := PStr "gpt-4o-mini";
                Base.usage :=
                  Some {| Base.prompt_tokens := PInt 10;
                          Base.completion_tokens := PInt 5;
                          Base.total_tokens := PInt 15 |} |}).
Proof.
  assert (Hgen : forall send self prompt model max_tokens temperature
                        m rest cm mm content i mo um,
     send (OpenAI.request self prompt model max_tokens temperature) = Ok (PDict m) ->
     m !! "choices" = Some (PList (PDict cm :: rest)) ->
     cm !! "message" = Some (PDict mm) ->
     mm !! "content" = Some content ->
     m !! "id" = Some i ->
     m !! "model" = Some mo ->
     OpenAI.usage_data m um ->
     OpenAI.complete send self prompt model max_tokens temperature
     = Ok {| Base.id := i; Base.text := content; Base.model := mo;
             Base.usage :=
               Some {| Base.prompt_tokens := count um "prompt_tokens";
                       Base.completion_tokens := count um "completion_tokens";
                       Base.total_tokens := count um "total_tokens" |} |}).
  { intros send self prompt model max_tokens temperature
           m rest cm mm content i mo um Hsend. intros.
    unfold OpenAI.complete. rewrite Hsend, bind_Ok.
    by eapply openai_parse_well_formed. }
  split; [exact Hgen|].
  intros send self prompt model max_tokens temperature Hsend.
  rewrite (Hgen send self prompt model max_tokens temperature
             Tests.openai_response [] Tests.openai_choice Tests.openai_message
             (PStr "Hello, world!") (PStr "test-123") (PStr "gpt-4o-mini")
             Tests.openai_usage Hsend);
    first [reflexivity | by right | idtac].
Qed.

Lemma openai_complete_maps_response_witness :
  Tests.respond Tests.openai_response
    (OpenAI.request Tests.openai_provider "Test prompt" None None None)
  = Ok (PDict Tests.openai_response)
  /\ OpenAI.complete (Tests.respond Tests.openai_response)
       Tests.openai_provider "Test prompt" None None None
     = Ok {| Base.id := PStr "test-123"; Base.text := PStr "Hello, world!";
             Base.model := PStr "gpt-4o-mini";
             Base.usage :=
               Some {| Base.prompt_tokens := PInt 10;
                       Base.completion_tokens := PInt 5;
                       Base.total_tokens := PInt 15 |} |}.
Proof.
  split; [reflexivity|].
  exact (proj2 openai_complete_maps_response
           (Tests.respond Tests.openai_response) Tests.openai_provider
           "Test prompt" None None None eq_refl).
Defined.

(** ** The generic adapter's response mapping (C5) *)

Lemma truthy_dict (um : gmap string pyval) :
  truthy (PDict um) = true <-> um <> ∅.
Proof.
  unfold truthy, pyval_truthy. rewrite negb_true_iff, bool_decide_eq_false. tauto.
Qed.

Lemma http_parse_usage_absent (m : gmap string pyval) :
  m !! "token_usage" = None -> HTTPAdapter.parse_usage (PDict m) = Ok None.
Proof.
  intros H. unfold HTTPAdapter.parse_usage. rewrite get_dict, H. simpl.
  unfold py_or, truthy, pyval_truthy. by rewrite bool_decide_eq_true_2.
Qed.

Lemma http_parse_usage_dict (m um : gmap string pyval) :
  m !! "token_usage" = Some (PDict um) ->
  um <> ∅ ->
  HTTPAdapter.parse_usage (PDict m)
  = (t ← add (count um "prompt") (count um "completion");
     Ok (Some {| Base.prompt_tokens := count um "prompt";
                 Base.completion_tokens := count um "completion";
                 Base.total_tokens := t |})).
Proof.
  intros H Hne. unfold HTTPAdapter.parse_usage. rewrite get_dict, H. simpl.
  apply truthy_dict in Hne. by rewrite Hne.
Qed.

Lemma http_parse_usage_Some (m : gmap string pyval) (u : Base.TokenUsage) :
  HTTPAdapter.parse_usage (PDict m) = Ok (Some u) ->
  exists um, m !! "token_usage" = Some (PDict um)
             /\ um <> ∅
             /\ Base.prompt_tokens u = count um "prompt"
             /\ Base.completion_tokens u = count um "completion"
             /\ add (count um "prompt") (count um "completion")
                = Ok (Base.total_tokens u).
Proof.
  unfold HTTPAdapter.parse_usage. rewrite get_dict.
  destruct (m !! "token_usage") as [ud|] eqn:Hud;
    cbn [default from_option id mbind result_bind].
  - destruct (truthy ud) eqn:Ht; cbn iota; [|discriminate].
    destruct ud as [| | | | | |um]; try discriminate.
    rewrite !get_dict. cbn [mbind result_bind].
    fold (count um "prompt") (count um "completion").
    destruct (add (count um "prompt") (count um "completion")) as [t|e] eqn:Hadd;
      [|discriminate].
    intros [= <-]. exists um. simpl.
    by rewrite <- truthy_dict.
  - unfold truthy, pyval_truthy. by rewrite bool_decide_eq_true_2.
Qed.

Lemma http_complete_dict send self prompt model max_tokens temperature m :
  send (HTTPAdapter.request self prompt model max_tokens temperature) = Ok (PDict m) ->
  HTTPAdapter.complete send self prompt model max_tokens temperature
  = (usage ← HTTPAdapter.parse_usage (PDict m);
     Ok {| Base.id := default (PStr "unknown") (m !! "id");
           Base.text := default (PStr "") (m !! "output");
           Base.model :=
             PStr (or_default (py_or model (Config.model (HTTPAdapter.config self)))
                              "default");
           Base.usage := usage |}).
Proof.
  intros Hsend. unfold HTTPAdapter.complete. cbv zeta. rewrite Hsend, bind_Ok.
  unfold HTTPAdapter.parse. rewrite !get_dict, bind_Ok.
  destruct (HTTPAdapter.parse_usage (PDict m)) as [u|e]; [|reflexivity].
  rewrite !bind_Ok. simpl Http.json.
  by rewrite (getitem_Some _ _ _ (http_payload_model _ _ _ _ _)).
Qed.

(** C5. The generic adapter reads a body (a JSON object) without requiring
    [output] or [id]: whether [complete] returns or raises is decided by the
    [token_usage] part alone, and a returned result has the body's [output]
    as text, the empty string when [output] is absent, and the body's [id],
    the literal "unknown" when [id] is absent.  A body with none of the three
    fields gives the result with id "unknown", text "" and no usage. *)
Theorem http_complete_tolerates_missing_fields
    send self prompt model max_tokens temperature (m : gmap string pyval) :
  send (HTTPAdapter.request self prompt model max_tokens temperature) = Ok (PDict m) ->
  (forall u, HTTPAdapter.parse_usage (PDict m) = Ok u ->
     exists r, HTTPAdapter.complete send self prompt model max_tokens temperature
               = Ok r
               /\ Base.usage r = u
               /\ Base.text r = default (PStr "") (m !! "output")
               /\ Base.id r = default (PStr "unknown") (m !! "id")
               /\ (m !! "output" = None -> Base.text r = PStr "")
               /\ (m !! "id" = None -> Base.id r = PStr "unknown"))
  /\ (forall e, HTTPAdapter.parse_usage (PDict m) = Raise e ->
        HTTPAdapter.complete send self prompt model max_tokens temperature
        = Raise e)
  /\ (m !! "token_usage" = None -> m !! "output" = None -> m !! "id" = None ->
      HTTPAdapter.complete send self prompt model max_tokens temperature
      = Ok {| Base.id := PStr "unknown"; Base.text := PStr "";
              Base.model :=
                PStr (or_default
                        (py_or model (Config.model (HTTPAdapter.config self)))
                        "default");
              Base.usage := None |}).
Proof.
  intros Hsend. rewrite (http_complete_dict _ _ _ _ _ _ _ Hsend).
  split; [|split].
  - intros u ->. rewrite bind_Ok. eexists. split; [reflexivity|]. simpl.
    repeat split; by intros ->.
  - by intros e ->.
  - intros Hu Ho Hi. by rewrite (http_parse_usage_absent _ Hu), Ho, Hi.
Qed.

Lemma http_complete_tolerates_missing_fields_witness :
  Tests.respond ∅ (HTTPAdapter.request Tests.http_provider "Test prompt" None None None)
  = Ok (PDict ∅)
  /\ HTTPAdapter.complete (Tests.respond ∅) Tests.http_provider
       "Test prompt" None None None
     = Ok {| Base.id := PStr "unknown"; Base.text := PStr "";
             Base.model := PStr "local-model"; Base.usage := None |}.
Proof.
  split; [reflexivity|].
  exact (proj2 (proj2 (http_complete_tolerates_missing_fields
                         (Tests.respond ∅) Tests.http_provider
                         "Test prompt" None None None ∅ eq_refl))
           eq_refl eq_refl eq_refl).
Defined.

(** ** The Anthropic-style response mapping, as the spec gives it *)

Lemma anthropic_parse_well_formed m rest bm t i mo :
  m !! "content" = Some (PList (PDict bm :: rest)) ->
  bm !! "text" = Some t ->
  m !! "id" = Some i ->
  m !! "model" = Some mo ->
  Anthropic.parse (PDict m)
  = (usage ← match m !! "usage" with
             | None => Ok None
             | Some usage_data =>
                 it ← get usage_data "input_tokens" (PInt 0);
                 ot ← get usage_data "output_tokens" (PInt 0);
                 tt ← add it ot;
                 Ok (Some {| Base.prompt_tokens := it;
                             Base.completion_tokens := ot;
                             Base.total_tokens := tt |})
             end;
     Ok {| Base.id := i; Base.text := t; Base.model := mo; Base.usage := usage |}).
Proof.
  intros Hc Ht Hi Hm. unfold Anthropic.parse.
  rewrite (getitem_Some _ _ _ Hc), bind_Ok, getitem_int_head, bind_Ok.
  rewrite (getitem_Some _ _ _ Ht), bind_Ok.
  rewrite (getitem_Some _ _ _ Hi), (getitem_Some _ _ _ Hm).
  by destruct (match m !! "usage" with None => _ | Some _ => _ end).
Qed.

Ltac bind_inv H :=
  let x := fresh "x" in
  let Hx := fresh "Hx" in
  apply bind_Ok_inv in H as (x & Hx & H).

Lemma anthropic_parse_usage_Some (data : pyval) (r : Base.CompletionResult)
    (u : Base.TokenUsage) :
  Anthropic.parse data = Ok r ->
  Base.usage r = Some u ->
  exists m um, data = PDict m
               /\ m !! "usage" = Some (PDict um)
               /\ Base.prompt_tokens u = count um "input_tokens"
               /\ Base.completion_tokens u = count um "output_tokens"
               /\ add (count um "input_tokens") (count um "output_tokens")
                  = Ok (Base.total_tokens u).
Proof.
  unfold Anthropic.parse. intros H Hu.
  do 4 bind_inv H. do 2 bind_inv H. injection H as <-. simpl in Hu. subst x2.
  destruct data as [| | | | | |m]; try discriminate.
  destruct (m !! "usage") as [ud|] eqn:Hud; [|discriminate].
  destruct ud as [| | | | | |um]; try discriminate.
  rewrite !get_dict, !bind_Ok in Hx2.
  fold (count um "input_tokens") (count um "output_tokens") in Hx2.
  bind_inv Hx2. injection Hx2 as <-. by exists m, um.
Qed.

(** ** The total of a usage (C6) *)

Lemma add_ints (a b : Z) : add (PInt a) (PInt b) = Ok (PInt (a + b)).
Proof. reflexivity. Qed.

Lemma add_ints_inv (x y t : pyval) (a b : Z) :
  add x y = Ok t -> x = PInt a -> y = PInt b -> t = PInt (a + b).
Proof. intros H -> ->. by injection H. Qed.

(** C6. Whenever the result of the Anthropic-style adapter (as the spec gives
    it) or of the generic adapter carries a usage, the body has the usage
    dict, the two counts of the result are the body's ([input_tokens] and
    [output_tokens], or [prompt] and [completion]), a missing one counted as
    0, and the total is their sum: for integer counts [a] and [b] it is
    [a + b].  Such results exist: a body whose usage dict holds integer
    counts gives a result with that usage. *)
Theorem usage_total_is_sum_of_counts :
  (forall send self prompt model max_tokens temperature data,
     send (HTTPAdapter.request self prompt model max_tokens temperature) = Ok data ->
     (forall r u,
        HTTPAdapter.complete send self prompt model max_tokens temperature = Ok r ->
        Base.usage r = Some u ->
        exists m um,
          data = PDict m
          /\ m !! "token_usage" = Some (PDict um)
          /\ Base.prompt_tokens u = count um "prompt"
          /\ Base.completion_tokens u = count um "completion"
          /\ add (count um "prompt") (count um "completion")
             = Ok (Base.total_tokens u)
          /\ (forall a b, count um "prompt" = PInt a ->
                          count um "completion" = PInt b ->
                          Base.total_tokens u = PInt (a + b)))
     /\ (forall m um a b,
           data = PDict m ->
           m !! "token_usage" = Some (PDict um) ->
           um <> ∅ ->
           count um "prompt" = PInt a ->
           count um "completion" = PInt b ->
           exists r,
             HTTPAdapter.complete send self prompt model max_tokens temperature
             = Ok r
             /\ Base.usage r
                = Some {| Base.prompt_tokens := PInt a;
                          Base.completion_tokens := PInt b;
                          Base.total_tokens := PInt (a + b) |}))
  /\ (forall send self prompt model max_tokens temperature data,
        send (Anthropic.request self prompt model max_tokens temperature) = Ok data ->
        (forall r u,
           Anthropic.complete send self prompt model max_tokens temperature = Ok r ->
           Base.usage r = Some u ->
           exists m um,
             data = PDict m
             /\ m !! "usage" = Some (PDict um)
             /\ Base.prompt_tokens u = count um "input_tokens"
             /\ Base.completion_tokens u = count um "output_tokens"
             /\ add (count um "input_tokens") (count um "output_tokens")
                = Ok (Base.total_tokens u)
             /\ (forall a b, count um "input_tokens" = PInt a ->
                             count um "output_tokens" = PInt b ->
                             Base.total_tokens u = PInt (a + b)))
        /\ (forall m rest bm t i mo um a b,
              data = PDict m ->
              m !! "content" = Some (PList (PDict bm :: rest)) ->
              bm !! "text" = Some t ->
              m !! "id" = Some i ->
              m !! "model" = Some mo ->
              m !! "usage" = Some (PDict um) ->
              count um "input_tokens" = PInt a ->
              count um "output_tokens" = PInt b ->
              Anthropic.complete send self prompt model max_tokens temperature
              = Ok {| Base.id := i; Base.text := t; Base.model := mo;
                      Base.usage :=
                        Some {| Base.prompt_tokens := PInt a;
                                Base.completion_tokens := PInt b;
                                Base.total_tokens := PInt (a + b) |} |})).
Proof.
  split; intros send self prompt model max_tokens temperature data Hsend; split.
  - intros r u Hr Hu.
    destruct data as [| | | | | |m];
      try (unfold HTTPAdapter.complete in Hr; cbv zeta in Hr;
           rewrite Hsend in Hr; discriminate).
    rewrite (http_complete_dict _ _ _ _ _ _ _ Hsend) in Hr.
    bind_inv Hr. injection Hr as <-. simpl in Hu. subst x.
    destruct (http_parse_usage_Some _ _ Hx) as (um & Hum & _ & Hp & Hc & Hadd).
    exists m, um. repeat split; try done.
    intros a b Ha Hb. by eapply add_ints_inv.
  - intros m um a b -> Hum Hne Ha Hb.
    rewrite (http_complete_dict _ _ _ _ _ _ _ Hsend).
    rewrite (http_parse_usage_dict _ _ Hum Hne), Ha, Hb, add_ints, !bind_Ok.
    eexists. split; reflexivity.
  - intros r u Hr Hu. unfold Anthropic.complete in Hr.
    rewrite Hsend, bind_Ok in Hr.
    destruct (anthropic_parse_usage_Some _ _ _ Hr Hu)
      as (m & um & -> & Hum & Hp & Hc & Hadd).
    exists m, um. repeat split; try done.
    intros a b Ha Hb. by eapply add_ints_inv.
  - intros m rest bm t i mo um a b -> Hc Ht Hi Hm Hum Ha Hb.
    unfold Anthropic.complete. rewrite Hsend, bind_Ok.
    rewrite (anthropic_parse_well_formed _ _ _ _ _ _ Hc Ht Hi Hm), Hum.
    rewrite !get_dict, !bind_Ok.
    fold (count um "input_tokens") (count um "output_tokens").
    by rewrite Ha, Hb, add_ints, !bind_Ok.
Qed.

Lemma usage_total_is_sum_of_counts_witness :
  Tests.respond Tests.http_response
    (HTTPAdapter.request Tests.http_provider "Test prompt" None None None)
  = Ok (PDict Tests.http_response)
  /\ (exists r,
        HTTPAdapter.complete (Tests.respond Tests.http_response)
          Tests.http_provider "Test prompt" None None None = Ok r
        /\ Base.usage r
           = Some {| Base.prompt_tokens := PInt 12;
                     Base.completion_tokens := PInt 8;
                     Base.total_tokens := PInt (12 + 8) |})
  /\ Anthropic.complete (Tests.respond Tests.anthropic_response)
       Tests.anthropic_provider "Test prompt" None None None
     = Ok {| Base.id := PStr "test-456"; Base.text := PStr "Greetings!";
             Base.model := PStr "claude-3-haiku-20240307";
             Base.usage :=
               Some {| Base.prompt_tokens := PInt 8;
                       Base.completion_tokens := PInt 3;
                       Base.total_tokens := PInt (8 + 3) |} |}.
Proof.
  split; [reflexivity|]. split.
  - apply (proj2 (proj1 usage_total_is_sum_of_counts
                    (Tests.respond Tests.http_response) Tests.http_provider
                    "Test prompt" None None None (PDict Tests.http_response)
                    eq_refl)
             Tests.http_response Tests.http_usage 12 8);
      [reflexivity | reflexivity | | reflexivity | reflexivity].
    intros H. apply (f_equal (fun um : gmap string pyval => um !! "prompt")) in H.
    discriminate H.
  - apply (proj2 (proj2 usage_total_is_sum_of_counts
                    (Tests.respond Tests.anthropic_response)
                    Tests.anthropic_provider
                    "Test prompt" None None None (PDict Tests.anthropic_response)
                    eq_refl)
             Tests.anthropic_response [] Tests.anthropic_block
             (PStr "Greetings!") (PStr "test-456")
             (PStr "claude-3-haiku-20240307") Tests.anthropic_usage 8 3);
      reflexivity.
Defined.

(** ** A body without usage data (C2) *)

(** C2, as the code has it.  A body that omits the usage data gives a result
    without usage in the generic adapter (and in the Anthropic-style adapter
    as the spec gives it); in the OpenAI-style adapter it gives a usage that
    is present, with all three counts 0. *)
Theorem usage_when_body_omits_it :
  (forall send self prompt model max_tokens temperature m,
     send (HTTPAdapter.request self prompt model max_tokens temperature)
     = Ok (PDict m) ->
     m !! "token_usage" = None ->
     exists r,
       HTTPAdapter.complete send self prompt model max_tokens temperature = Ok r
       /\ Base.usage r = None)
  /\ (forall send self prompt model max_tokens temperature m rest bm t i mo,
        send (Anthropic.request self prompt model max_tokens temperature)
        = Ok (PDict m) ->
        m !! "content" = Some (PList (PDict bm :: rest)) ->
        bm !! "text" = Some t ->
        m !! "id" = Some i ->
        m !! "model" = Some mo ->
        m !! "usage" = None ->
        exists r,
          Anthropic.complete send self prompt model max_tokens temperature = Ok r
          /\ Base.usage r = None)
  /\ (forall send self prompt model max_tokens temperature
             m rest cm mm content i mo,
        send (OpenAI.request self prompt model max_tokens temperature)
        = Ok (PDict m) ->
        m !! "choices" = Some (PList (PDict cm :: rest)) ->
        cm !! "message" = Some (PDict mm) ->
        mm !! "content" = Some content ->
        m !! "id" = Some i ->
        m !! "model" = Some mo ->
        m !! "usage" = None ->
        exists r,
          OpenAI.complete send self prompt model max_tokens temperature = Ok r
          /\ Base.usage r
             = Some {| Base.prompt_tokens := PInt 0;
                       Base.completion_tokens := PInt 0;
                       Base.total_tokens := PInt 0 |}).
Proof.
  split; [|split].
  - intros send self prompt model max_tokens temperature m Hsend Hu.
    rewrite (http_complete_dict _ _ _ _ _ _ _ Hsend), (http_parse_usage_absent _ Hu).
    eexists. split; reflexivity.
  - intros send self prompt model max_tokens temperature m rest bm t i mo
           Hsend Hc Ht Hi Hm Hu.
    unfold Anthropic.complete. rewrite Hsend, bind_Ok.
    rewrite (anthropic_parse_well_formed _ _ _ _ _ _ Hc Ht Hi Hm), Hu.
    eexists. split; reflexivity.
  - intros send self prompt model max_tokens temperature m rest cm mm content i mo
           Hsend Hc Hmsg Hcontent Hi Hm Hu.
    unfold OpenAI.complete. rewrite Hsend, bind_Ok.
    rewrite (openai_parse_well_formed m rest cm mm content i mo ∅)
      by (try done; by left).
    eexists. split; reflexivity.
Qed.

Lemma usage_when_body_omits_it_witness :
  Tests.respond (delete "token_usage" Tests.http_response)
    (HTTPAdapter.request Tests.http_provider "Test prompt" None None None)
  = Ok (PDict (delete "token_usage" Tests.http_response))
  /\ delete "token_usage" Tests.http_response !! "token_usage" = None
  /\ exists r,
       HTTPAdapter.complete
         (Tests.respond (delete "token_usage" Tests.http_response))
         Tests.http_provider "Test prompt" None None None = Ok r
       /\ Base.usage r = None.
Proof.
  split; [reflexivity|]. split; [reflexivity|].
  exact (proj1 usage_when_body_omits_it
           (Tests.respond (delete "token_usage" Tests.http_response))
           Tests.http_provider "Test prompt" None None None
           (delete "token_usage" Tests.http_response) eq_refl eq_refl).
Defined.

(** C2 as the spec states it fails on the OpenAI-style adapter: the
    body of the test without its [usage] gives a result whose usage is
    there, all zeros. *)
Lemma openai_usage_not_absent :
  Tests.openai_response_no_usage !! "usage" = None
  /\ exists r,
       OpenAI.complete (Tests.respond Tests.openai_response_no_usage)
         Tests.openai_provider "Test prompt" None None None = Ok r
       /\ Base.usage r
          = Some {| Base.prompt_tokens := PInt 0;
                    Base.completion_tokens := PInt 0;
                    Base.total_tokens := PInt 0 |}
       /\ Base.usage r <> None.
Proof.
  split; [reflexivity|]. eexists. split; [vm_compute; reflexivity|].
  split; [reflexivity | discriminate].
Qed.

(** ** Loading and saving the configuration (C8, C9) *)

Lemma optional_str_dump (o : option string) :
  Config.optional Config.validate_str (of_opt_str o) = Ok o.
Proof. by destruct o. Qed.

Lemma optional_int_dump {lax : Config.conversions} (o : option Z) :
  Config.optional (Config.validate_int lax) (of_opt_int o) = Ok o.
Proof. by destruct o. Qed.

Lemma ProviderConfig_validate_dump {lax : Config.conversions} (p : Config.ProviderConfig) :
  Config.ProviderConfig_validate lax (Config.ProviderConfig_dump p) = Ok p.
Proof.
  destruct p as [u k mo mt t].
  unfold Config.ProviderConfig_validate, Config.ProviderConfig_dump, Config.field.
  simplify_map_eq. cbn [Config.validate_str mbind result_bind].
  rewrite !optional_str_dump, optional_int_dump. reflexivity.
Qed.

Lemma validate_providers_dump {lax : Config.conversions} (ps : gmap string Config.ProviderConfig) :
  Config.validate_providers lax (PDict (Config.ProviderConfig_dump <$> ps)) = Ok ps.
Proof.
  unfold Config.validate_providers.
  generalize (eq_refl (Config.ProviderConfig_dump <$> ps)).
  generalize (Config.ProviderConfig_dump <$> ps) at 1 3 as dumped.
  intros dumped. revert ps.
  apply (map_fold_weak_ind
           (fun r (m : gmap string pyval) =>
              forall ps, m = Config.ProviderConfig_dump <$> ps -> r = Ok ps)).
  - intros ps Hps. symmetry in Hps. apply fmap_empty_inv in Hps. by subst.
  - intros i x m r Hi IH ps Hps.
    assert (Hx : (Config.ProviderConfig_dump <$> ps) !! i = Some x)
      by (rewrite <- Hps; apply lookup_insert_eq).
    rewrite lookup_fmap in Hx. apply fmap_Some in Hx as (p & Hp & ->).
    assert (Hm : m = Config.ProviderConfig_dump <$> delete i ps).
    { rewrite fmap_delete, <- Hps, delete_insert_eq. symmetry. by apply delete_id. }
    rewrite (IH _ Hm), bind_Ok, ProviderConfig_validate_dump, bind_Ok.
    f_equal. rewrite insert_delete_eq. by apply insert_id.
Qed.

Lemma AgentConfig_new_dump {lax : Config.conversions} (c : Config.AgentConfig) :
  Config.AgentConfig_new lax (Config.model_dump c) = Ok c.
Proof.
  destruct c as [d ps]. unfold Config.AgentConfig_new, Config.model_dump, Config.field.
  simplify_map_eq. cbn [Config.validate_str mbind result_bind].
  pose proof (validate_providers_dump (lax := lax) ps) as Hps.
  unfold Config.validate_providers in Hps. by rewrite Hps.
Qed.

Lemma model_dump_truthy (c : Config.AgentConfig) :
  py_or (Config.model_dump c) (PDict ∅) = Config.model_dump c.
Proof.
  unfold py_or.
  replace (truthy (Config.model_dump c)) with true; [reflexivity|].
  symmetry. apply truthy_dict, insert_non_empty.
Qed.

Lemma default_config_names :
  dom (Config.providers Config.create_default_config)
  = ({[ "openai"; "anthropic"; "local_mcp" ]} : gset string).
Proof. unfold Config.create_default_config. simpl. rewrite !dom_insert_L. set_solver. Qed.

Section ConfigStorage.
Context {text : Type}.
Variable safe_dump : pyval -> text.
Variable safe_load : text -> result pyval.
Variable lax : Config.conversions.
Variable order : Cli.key_order.

(** PyYAML reads back what it wrote, for the dump of a configuration. *)
Hypothesis safe_load_dump :
  forall c, safe_load (safe_dump (Config.model_dump c)) = Ok (Config.model_dump c).

Lemma load_save (self : Config.AgentConfig) fs home config_path :
  Config.load safe_load lax (Config.save safe_dump self fs home config_path)
    home config_path
  = Ok self.
Proof using safe_load_dump.
  unfold Config.load, Config.save. cbv zeta.
  rewrite lookup_insert_eq, safe_load_dump, bind_Ok, model_dump_truthy.
  apply AgentConfig_new_dump.
Qed.

(** C8. Saving a configuration to a path and loading from that path gives a
    configuration with the same [default_provider] and the same set of
    provider names; for the default configuration the names openai,
    anthropic and local_mcp are the loaded ones.  PyYAML is taken to read
    back the document it wrote. *)
Theorem save_then_load_keeps_names :
  (forall self fs home config_path,
     exists loaded,
       Config.load safe_load lax (Config.save safe_dump self fs home config_path)
         home config_path
       = Ok loaded
       /\ Config.default_provider loaded = Config.default_provider self
       /\ dom (Config.providers loaded) = dom (Config.providers self))
  /\ (forall fs home config_path,
        exists loaded,
          Config.load safe_load lax
            (Config.save safe_dump Config.create_default_config fs home config_path)
            home config_path
          = Ok loaded
          /\ Config.default_provider loaded = "openai"
          /\ dom (Config.providers loaded)
             = ({[ "openai"; "anthropic"; "local_mcp" ]} : gset string)).
Proof using safe_load_dump.
  split.
  - intros self fs home config_path. exists self. by rewrite load_save.
  - intros fs home config_path. exists Config.create_default_config.
    rewrite load_save. split; [reflexivity|]. split; [reflexivity|].
    apply default_config_names.
Qed.

(** C9, as the code has it.  Where no file exists at the path, [load] raises
    nothing and returns the configuration of the fields' defaults: the
    default provider "openai" and no provider at all. *)
Theorem load_without_file_gives_field_defaults fs home config_path :
  fs !! default (Config.get_config_path home) config_path = None ->
  Config.load safe_load lax fs home config_path
  = Ok {| Config.default_provider := "openai"; Config.providers := ∅ |}.
Proof. intros H. unfold Config.load. cbv zeta. by rewrite H. Qed.

End ConfigStorage.

Lemma save_then_load_keeps_names_witness :
  (forall c, Ok (Config.model_dump c) = Ok (Config.model_dump c))
  /\ exists loaded,
       Config.load Ok Tests.strict
         (Config.save (fun v => v) Config.create_default_config ∅
            "/home/user" (Some "/tmp/config.yaml"))
         "/home/user" (Some "/tmp/config.yaml")
       = Ok loaded
       /\ Config.default_provider loaded = "openai"
       /\ dom (Config.providers loaded)
          = ({[ "openai"; "anthropic"; "local_mcp" ]} : gset string).
Proof.
  split; [reflexivity|].
  exact (proj2 (save_then_load_keeps_names (fun v => v) Ok Tests.strict
                  (fun c => eq_refl))
           ∅ "/home/user" (Some "/tmp/config.yaml")).
Defined.

Lemma load_without_file_gives_field_defaults_witness :
  (∅ : gmap string pyval) !! default (Config.get_config_path "/home/user") None = None
  /\ Config.load Ok Tests.strict (∅ : gmap string pyval) "/home/user" None
     = Ok {| Config.default_provider := "openai"; Config.providers := ∅ |}.
Proof.
  split; [apply lookup_empty|].
  exact (load_without_file_gives_field_defaults Ok Tests.strict ∅ "/home/user" None
           (lookup_empty _)).
Defined.

(** C9 as the spec states it fails when the default configuration is
    the one of [create_default_config]: without a file, [load] returns a
    configuration that has no provider, [create_default_config] has three. *)
Lemma load_without_file_is_not_create_default_config :
  (∅ : gmap string pyval) !! default (Config.get_config_path "/home/user") None = None
  /\ Config.load Ok Tests.strict (∅ : gmap string pyval) "/home/user" None
     <> Ok Config.create_default_config
  /\ (forall loaded,
        Config.load Ok Tests.strict (∅ : gmap string pyval) "/home/user" None
        = Ok loaded ->
        Config.get_provider loaded None = None
        /\ Config.get_provider Config.create_default_config None
           = Some Tests.openai_default_config).
Proof.
  split; [apply lookup_empty|]. split.
  - intros H.
    apply (f_equal (fun r => match r with
                             | Ok c => Config.providers c !! "openai"
                             | Raise _ => None
                             end)) in H.
    discriminate H.
  - intros loaded [= <-]. split; reflexivity.
Qed.

(** * Further properties of the code *)

(** ** Reading a body: what success tells *)

Lemma getitem_Ok_inv (v : pyval) (key : string) (x : pyval) :
  getitem v key = Ok x -> exists m, v = PDict m /\ m !! key = Some x.
Proof.
  destruct v as [| | | | | |m]; try discriminate. unfold getitem.
  destruct (m !! key) as [y|] eqn:Hy; [|discriminate].
  intros [= <-]. by exists m.
Qed.

Lemma get_Ok_inv (v : pyval) (key : string) (d x : pyval) :
  get v key d = Ok x -> exists m, v = PDict m /\ x = default d (m !! key).
Proof.
  destruct v as [| | | | | |m]; try discriminate.
  intros [= <-]. by exists m.
Qed.

Lemma norm_index_0 (len : Z) :
  norm_index len 0 = if 0 <? len then Some O else None.
Proof. unfold norm_index. simpl. by destruct (0 <? len). Qed.

Lemma getitem_int_0_inv (v x : pyval) :
  getitem_int v 0 = Ok x ->
  (exists rest, v = PList (x :: rest)) \/ (exists c, x = PStr (String c EmptyString)).
Proof.
  destruct v as [| | | |s|l|m]; try discriminate; unfold getitem_int;
    rewrite norm_index_0.
  - destruct s as [|c s]; [discriminate|].
    replace (0 <? Z.of_nat (String.length (String c s))) with true
      by (symmetry; apply Z.ltb_lt; simpl; lia).
    intros [= <-]. right. by exists c.
  - destruct l as [|y l]; [discriminate|].
    replace (0 <? Z.of_nat (length (y :: l))) with true
      by (symmetry; apply Z.ltb_lt; simpl; lia).
    intros [= <-]. left. by exists l.
Qed.

Lemma getitem_int_nil : getitem_int (PList []) 0 = Raise IndexError.
Proof. reflexivity. Qed.

Lemma getitem_None (m : gmap string pyval) (key : string) :
  m !! key = None -> getitem (PDict m) key = Raise (KeyError (PStr key)).
Proof. unfold getitem. by intros ->. Qed.

Lemma openai_parse_Ok_inv (data : pyval) (r : Base.CompletionResult) :
  OpenAI.parse data = Ok r ->
  exists m rest cm mm content i mo um,
    data = PDict m
    /\ m !! "choices" = Some (PList (PDict cm :: rest))
    /\ cm !! "message" = Some (PDict mm)
    /\ mm !! "content" = Some content
    /\ m !! "id" = Some i
    /\ m !! "model" = Some mo
    /\ OpenAI.usage_data m um
    /\ r = {| Base.id := i; Base.text := content; Base.model := mo;
              Base.usage :=
                Some {| Base.prompt_tokens := count um "prompt_tokens";
                        Base.completion_tokens := count um "completion_tokens";
                        Base.total_tokens := count um "total_tokens" |} |}.
Proof.
  unfold OpenAI.parse. intros H.
  apply bind_Ok_inv in H as (choices & Hchoices & H).
  apply bind_Ok_inv in H as (choice & Hchoice & H).
  apply bind_Ok_inv in H as (message & Hmessage & H).
  apply bind_Ok_inv in H as (content & Hcontent & H).
  apply bind_Ok_inv in H as (ud & Hud & H).
  apply bind_Ok_inv in H as (pt & Hpt & H).
  apply bind_Ok_inv in H as (ct & Hct & H).
  apply bind_Ok_inv in H as (tt & Htt & H).
  apply bind_Ok_inv in H as (i & Hi & H).
  apply bind_Ok_inv in H as (mo & Hmo & H).
  injection H as <-.
  apply getitem_Ok_inv in Hchoices as (m & -> & Hchoices).
  apply getitem_Ok_inv in Hmessage as (cm & -> & Hmessage).
  apply getitem_Ok_inv in Hcontent as (mm & -> & Hcontent).
  apply getitem_int_0_inv in Hchoice as [[rest ->] | [c Hc]]; [|discriminate].
  apply get_Ok_inv in Hpt as (um & -> & ->).
  apply get_Ok_inv in Hct as (um' & [= <-] & ->).
  apply get_Ok_inv in Htt as (um' & [= <-] & ->).
  apply get_Ok_inv in Hud as (m' & [= <-] & Hud).
  apply getitem_Ok_inv in Hi as (m' & [= <-] & Hi).
  apply getitem_Ok_inv in Hmo as (m' & [= <-] & Hmo).
  exists m, rest, cm, mm, content, i, mo, um. repeat split; try done.
  unfold OpenAI.usage_data. destruct (m !! "usage") as [v|]; simpl in Hud.
  - right. by rewrite Hud.
  - left. split; [done|]. by injection Hud.
Qed.

(** X1. The OpenAI-style adapter returns a result only for a well-formed
    body: when [complete] returns, the body is a dict that has [choices]
    starting with a dict whose [message] has [content], [id] and [model],
    and a [usage] that is a dict or is missing; the result is the one read
    from these, and it always has a usage. *)
Theorem openai_complete_returns_only_well_formed
    send self prompt model max_tokens temperature data r :
  send (OpenAI.request self prompt model max_tokens temperature) = Ok data ->
  OpenAI.complete send self prompt model max_tokens temperature = Ok r ->
  exists m rest cm mm content i mo um,
    data = PDict m
    /\ m !! "choices" = Some (PList (PDict cm :: rest))
    /\ cm !! "message" = Some (PDict mm)
    /\ mm !! "content" = Some content
    /\ m !! "id" = Some i
    /\ m !! "model" = Some mo
    /\ OpenAI.usage_data m um
    /\ Base.id r = i /\ Base.text r = content /\ Base.model r = mo
    /\ Base.usage r
       = Some {| Base.prompt_tokens := count um "prompt_tokens";
                 Base.completion_tokens := count um "completion_tokens";
                 Base.total_tokens := count um "total_tokens" |}.
Proof.
  intros Hsend Hr. unfold OpenAI.complete in Hr. rewrite Hsend, bind_Ok in Hr.
  apply openai_parse_Ok_inv in Hr
    as (m & rest & cm & mm & content & i & mo & um & -> & ? & ? & ? & ? & ? & ? & ->).
  exists m, rest, cm, mm, content, i, mo, um. by repeat split.
Qed.

Lemma openai_complete_returns_only_well_formed_witness :
  exists m rest cm mm content i mo um,
    PDict Tests.openai_response = PDict m
    /\ m !! "choices" = Some (PList (PDict cm :: rest))
    /\ cm !! "message" = Some (PDict mm)
    /\ mm !! "content" = Some content
    /\ m !! "id" = Some i
    /\ m !! "model" = Some mo
    /\ OpenAI.usage_data m um
    /\ PStr "test-123" = i /\ PStr "Hello, world!" = content
    /\ PStr "gpt-4o-mini" = mo
    /\ Some {| Base.prompt_tokens := PInt 10; Base.completion_tokens := PInt 5;
               Base.total_tokens := PInt 15 |}
       = Some {| Base.prompt_tokens := count um "prompt_tokens";
                 Base.completion_tokens := count um "completion_tokens";
                 Base.total_tokens := count um "total_tokens" |}.
Proof.
  exact (openai_complete_returns_only_well_formed
           (Tests.respond Tests.openai_response) Tests.openai_provider
           "Test prompt" None None None (PDict Tests.openai_response)
           {| Base.id := PStr "test-123"; Base.text := PStr "Hello, world!";
              Base.model := PStr "gpt-4o-mini";
              Base.usage :=
                Some {| Base.prompt_tokens := PInt 10;
                        Base.completion_tokens := PInt 5;
                        Base.total_tokens := PInt 15 |} |}
           eq_refl eq_refl).
Defined.

Lemma openai_parse_after_text m rest cm mm content :
  m !! "choices" = Some (PList (PDict cm :: rest)) ->
  cm !! "message" = Some (PDict mm) ->
  mm !! "content" = Some content ->
  OpenAI.parse (PDict m)
  = (usage_data ← get (PDict m) "usage" (PDict ∅);
     pt ← get usage_data "prompt_tokens" (PInt 0);
     ct ← get usage_data "completion_tokens" (PInt 0);
     tt ← get usage_data "total_tokens" (PInt 0);
     i ← getitem (PDict m) "id";
     mo ← getitem (PDict m) "model";
     Ok {| Base.id := i; Base.text := content; Base.model := mo;
           Base.usage :=
             Some {| Base.prompt_tokens := pt; Base.completion_tokens := ct;
                     Base.total_tokens := tt |} |}).
Proof.
  intros Hch Hmsg Hcontent. unfold OpenAI.parse.
  rewrite (getitem_Some _ _ _ Hch), bind_Ok, getitem_int_head, bind_Ok.
  rewrite (getitem_Some _ _ _ Hmsg), bind_Ok.
  by rewrite (getitem_Some _ _ _ Hcontent), bind_Ok.
Qed.

(** X2. The errors of the OpenAI-style adapter on a body that is not
    well-formed: a body that is no dict is a [TypeError]; a dict without
    [choices] is [KeyError('choices')], with an empty [choices] list an
    [IndexError]; when the text can be read, a [usage] that is no dict is an
    [AttributeError], and with a proper usage a missing [id] is
    [KeyError('id')] and a missing [model] (the id being there) is
    [KeyError('model')]. *)
Theorem openai_complete_errors
    send self prompt model max_tokens temperature data :
  send (OpenAI.request self prompt model max_tokens temperature) = Ok data ->
  ((forall m, data <> PDict m) ->
   OpenAI.complete send self prompt model max_tokens temperature = Raise TypeError)
  /\ (forall m,
        data = PDict m ->
        (m !! "choices" = None ->
         OpenAI.complete send self prompt model max_tokens temperature
         = Raise (KeyError (PStr "choices")))
        /\ (m !! "choices" = Some (PList []) ->
            OpenAI.complete send self prompt model max_tokens temperature
            = Raise IndexError)
        /\ (forall rest cm mm content,
              m !! "choices" = Some (PList (PDict cm :: rest)) ->
              cm !! "message" = Some (PDict mm) ->
              mm !! "content" = Some content ->
              (forall v, m !! "usage" = Some v -> (forall um, v <> PDict um) ->
                 OpenAI.complete send self prompt model max_tokens temperature
                 = Raise AttributeError)
              /\ (forall um, OpenAI.usage_data m um ->
                    (m !! "id" = None ->
                     OpenAI.complete send self prompt model max_tokens temperature
                     = Raise (KeyError (PStr "id")))
                    /\ (forall i, m !! "id" = Some i -> m !! "model" = None ->
                          OpenAI.complete send self prompt model max_tokens
                            temperature
                          = Raise (KeyError (PStr "model")))))).
Proof.
  intros Hsend. unfold OpenAI.complete. rewrite Hsend, bind_Ok. split.
  - intros Hnd. destruct data as [| | | | | |m]; try reflexivity.
    by destruct (Hnd m).
  - intros m ->. split; [|split].
    + intros H. unfold OpenAI.parse. by rewrite (getitem_None _ _ H).
    + intros H. unfold OpenAI.parse.
      by rewrite (getitem_Some _ _ _ H), bind_Ok, getitem_int_nil.
    + intros rest cm mm content Hch Hmsg Hcontent.
      rewrite (openai_parse_after_text _ _ _ _ _ Hch Hmsg Hcontent).
      rewrite get_dict, bind_Ok. split.
      * intros v Hv Hnd. rewrite Hv. simpl.
        destruct v as [| | | | | |um]; try reflexivity. by destruct (Hnd um).
      * intros um Hum.
        assert (default (PDict ∅) (m !! "usage") = PDict um) as ->
          by (destruct Hum as [[-> ->] | ->]; reflexivity).
        rewrite !get_dict, !bind_Ok. split.
        -- intros Hi. by rewrite (getitem_None _ _ Hi).
        -- intros i Hi Hmo.
           by rewrite (getitem_Some _ _ _ Hi), bind_Ok, (getitem_None _ _ Hmo).
Qed.

Lemma openai_complete_errors_witness :
  Tests.respond (delete "id" Tests.openai_response)
    (OpenAI.request Tests.openai_provider "Test prompt" None None None)
  = Ok (PDict (delete "id" Tests.openai_response))
  /\ OpenAI.complete (Tests.respond (delete "id" Tests.openai_response))
       Tests.openai_provider "Test prompt" None None None
     = Raise (KeyError (PStr "id")).
Proof.
  split; [reflexivity|].
  destruct (openai_complete_errors
              (Tests.respond (delete "id" Tests.openai_response))
              Tests.openai_provider "Test prompt" None None None
              (PDict (delete "id" Tests.openai_response)) eq_refl)
    as [_ Hdict].
  destruct (Hdict (delete "id" Tests.openai_response) eq_refl) as (_ & _ & Hwf).
  destruct (Hwf [] Tests.openai_choice Tests.openai_message (PStr "Hello, world!")
              eq_refl eq_refl eq_refl) as [_ Husage].
  destruct (Husage Tests.openai_usage (or_intror eq_refl)) as [Hid _].
  exact (Hid eq_refl).
Defined.

(** ** The credential *)

Lemma str_truthy_ne (s : string) : str_truthy s = true <-> s <> "".
Proof. destruct s; simpl; split; (done || congruence). Qed.

(** X3. The OpenAI-style adapter is constructed exactly when the
    configuration names a non-empty variable that the environment sets to a
    non-empty value; the provider then keeps that value as its key. *)
Theorem openai_init_succeeds_iff pc env p :
  OpenAI.__init__ pc env = Ok p
  <-> exists name key,
        Config.api_key_env pc = Some name /\ name <> ""
        /\ Config.getenv env name = Some key /\ key <> ""
        /\ p = {| OpenAI.config := pc; OpenAI.api_key := Some key |}.
Proof.
  unfold OpenAI.__init__, Config.get_api_key.
  cbv [truthy option_truthy str_Truthy]. split.
  - destruct (Config.api_key_env pc) as [name|]; [|discriminate].
    destruct (str_truthy name) eqn:Hn; [|discriminate].
    destruct (Config.getenv env name) as [key|] eqn:Hkey; [|discriminate].
    destruct (str_truthy key) eqn:Hk; [|discriminate].
    intros [= <-]. exists name, key. rewrite <- !str_truthy_ne. by repeat split.
  - intros (name & key & -> & Hn & Hkey & Hk & ->).
    apply str_truthy_ne in Hn, Hk. by rewrite Hn, Hkey, Hk.
Qed.

(** X4. Every request of a constructed OpenAI-style provider goes to
    [<base_url>/v1/chat/completions] with the provider's timeout and carries
    the header [Authorization: Bearer <key>], where the key is the non-empty
    value of the configured variable. *)
Theorem openai_request_carries_key pc env self :
  OpenAI.__init__ pc env = Ok self ->
  exists name key,
    Config.api_key_env pc = Some name
    /\ Config.getenv env name = Some key /\ key <> ""
    /\ forall prompt model max_tokens temperature,
         Http.headers (OpenAI.request self prompt model max_tokens temperature)
         = [("Authorization", "Bearer " +:+ key);
            ("Content-Type", "application/json")]
         /\ Http.url (OpenAI.request self prompt model max_tokens temperature)
            = Config.base_url pc +:+ "/v1/chat/completions"
         /\ Http.timeout (OpenAI.request self prompt model max_tokens temperature)
            = Config.timeout pc.
Proof.
  intros H. apply openai_init_succeeds_iff in H
    as (name & key & Hname & _ & Hkey & Hne & ->).
  exists name, key. by repeat split.
Qed.

Lemma openai_request_carries_key_witness :
  OpenAI.__init__ Tests.openai_config Tests.openai_env = Ok Tests.openai_provider
  /\ exists name key,
       Config.api_key_env Tests.openai_config = Some name
       /\ Config.getenv Tests.openai_env name = Some key /\ key <> ""
       /\ forall prompt model max_tokens temperature,
            Http.headers
              (OpenAI.request Tests.openai_provider prompt model max_tokens
                 temperature)
            = [("Authorization", "Bearer " +:+ key);
               ("Content-Type", "application/json")]
            /\ Http.url
                 (OpenAI.request Tests.openai_provider prompt model max_tokens
                    temperature)
               = Config.base_url Tests.openai_config +:+ "/v1/chat/completions"
            /\ Http.timeout
                 (OpenAI.request Tests.openai_provider prompt model max_tokens
                    temperature)
               = Config.timeout Tests.openai_config.
Proof.
  split; [reflexivity|].
  exact (openai_request_carries_key Tests.openai_config Tests.openai_env
           Tests.openai_provider eq_refl).
Defined.

(** ** The request payload *)

Lemma cascade_str (o c : option string) (d : string) :
  d <> "" ->
  or_default (py_or o c) d <> ""
  /\ (forall ch t, o = Some (String ch t) -> or_default (py_or o c) d = String ch t)
  /\ ((o = None \/ o = Some "") ->
      forall ch t, c = Some (String ch t) -> or_default (py_or o c) d = String ch t)
  /\ ((o = None \/ o = Some "") -> (c = None \/ c = Some "") ->
      or_default (py_or o c) d = d).
Proof.
  intros Hd. split; [|split; [|split]].
  - destruct o as [[|ch t]|], c as [[|ch' t']|]; by cbv.
  - by intros ch t ->.
  - by intros [-> | ->] ch t ->.
  - by intros [-> | ->] [-> | ->].
Qed.

Lemma py_or_int (o c : option Z) :
  py_or o c
  = match o with
    | Some z => if z =? 0 then c else Some z
    | None => c
    end.
Proof.
  destruct o as [z|]; [|reflexivity].
  unfold py_or, truthy, option_truthy, truthy, int_Truthy. by destruct (z =? 0).
Qed.

Lemma cascade_int (o c : option Z) (d : Z) :
  d <> 0 ->
  or_default (py_or o c) d <> 0
  /\ (forall z, o = Some z -> z <> 0 -> or_default (py_or o c) d = z)
  /\ ((o = None \/ o = Some 0) ->
      forall z, c = Some z -> z <> 0 -> or_default (py_or o c) d = z)
  /\ ((o = None \/ o = Some 0) -> (c = None \/ c = Some 0) ->
      or_default (py_or o c) d = d).
Proof.
  intros Hd. rewrite or_default_int, py_or_int.
  split; [|split; [|split]].
  - destruct o as [z|]; [destruct (z =? 0) eqn:Hz|].
    + destruct c as [z'|]; [|done].
      destruct (z' =? 0) eqn:Hz'; [done | by apply Z.eqb_neq].
    + rewrite Hz. by apply Z.eqb_neq.
    + destruct c as [z'|]; [|done].
      destruct (z' =? 0) eqn:Hz'; [done | by apply Z.eqb_neq].
  - intros z -> Hz. apply Z.eqb_neq in Hz. by rewrite !Hz.
  - intros Ho z -> Hz. apply Z.eqb_neq in Hz.
    destruct Ho as [-> | ->]; simpl; by rewrite Hz.
  - by intros [-> | ->] [-> | ->].
Qed.

(** X5. Whatever the caller and the configuration supply, the payload of
    the OpenAI-style and of the generic adapter carries a model that is a
    non-empty string and a [max_tokens] that is a non-zero integer: a
    non-empty override is sent as it is (a negative [max_tokens] too); with
    no override, or an empty or zero one, the configured default is sent when
    it is non-empty or non-zero; and with neither, the fallback ("gpt-4o-mini"
    or "default", and 1024). *)
Theorem payload_model_and_max_tokens_never_empty :
  (forall self prompt model max_tokens temperature,
     exists s n,
       OpenAI.payload self prompt model max_tokens temperature !! "model"
       = Some (PStr s)
       /\ OpenAI.payload self prompt model max_tokens temperature !! "max_tokens"
          = Some (PInt n)
       /\ s <> "" /\ n <> 0
       /\ (forall ch t, model = Some (String ch t) -> s = String ch t)
       /\ (forall z, max_tokens = Some z -> z <> 0 -> n = z)
       /\ ((model = None \/ model = Some "") ->
           forall ch t,
             Config.model (OpenAI.config self) = Some (String ch t) ->
             s = String ch t)
       /\ ((max_tokens = None \/ max_tokens = Some 0) ->
           forall z,
             Config.max_tokens (OpenAI.config self) = Some z -> z <> 0 ->
             n = z)
       /\ ((model = None \/ model = Some "") ->
           (Config.model (OpenAI.config self) = None
            \/ Config.model (OpenAI.config self) = Some "") ->
           s = "gpt-4o-mini")
       /\ ((max_tokens = None \/ max_tokens = Some 0) ->
           (Config.max_tokens (OpenAI.config self) = None
            \/ Config.max_tokens (OpenAI.config self) = Some 0) ->
           n = 1024))
  /\ (forall self prompt model max_tokens temperature,
        exists s n,
          HTTPAdapter.payload self prompt model max_tokens temperature !! "model"
          = Some (PStr s)
          /\ HTTPAdapter.payload self prompt model max_tokens temperature
             !! "max_tokens"
             = Some (PInt n)
          /\ s <> "" /\ n <> 0
          /\ (forall ch t, model = Some (String ch t) -> s = String ch t)
          /\ (forall z, max_tokens = Some z -> z <> 0 -> n = z)
          /\ ((model = None \/ model = Some "") ->
              forall ch t,
                Config.model (HTTPAdapter.config self) = Some (String ch t) ->
                s = String ch t)
          /\ ((max_tokens = None \/ max_tokens = Some 0) ->
              forall z,
                Config.max_tokens (HTTPAdapter.config self) = Some z -> z <> 0 ->
                n = z)
          /\ ((model = None \/ model = Some "") ->
              (Config.model (HTTPAdapter.config self) = None
               \/ Config.model (HTTPAdapter.config self) = Some "") ->
              s = "default")
          /\ ((max_tokens = None \/ max_tokens = Some 0) ->
              (Config.max_tokens (HTTPAdapter.config self) = None
               \/ Config.max_tokens (HTTPAdapter.config self) = Some 0) ->
              n = 1024)).
Proof.
  split; intros self prompt model max_tokens temperature; eexists _, _.
  - split; [apply openai_payload_model|].
    split; [apply openai_payload_max_tokens|].
    destruct (cascade_str model (Config.model (OpenAI.config self)) "gpt-4o-mini")
      as (? & ? & ? & ?); [done|].
    destruct (cascade_int max_tokens (Config.max_tokens (OpenAI.config self)) 1024)
      as (? & ? & ? & ?); [done|].
    by repeat split.
  - split; [apply http_payload_model|].
    split; [apply http_payload_max_tokens|].
    destruct (cascade_str model (Config.model (HTTPAdapter.config self)) "default")
      as (? & ? & ? & ?); [done|].
    destruct (cascade_int max_tokens (Config.max_tokens (HTTPAdapter.config self))
                1024)
      as (? & ? & ? & ?); [done|].
    by repeat split.
Qed.

(** X6. The wire format of the two adapters of the sources.  The OpenAI-style
    payload has exactly the keys [model], [messages] and [max_tokens], the
    messages being the one user message with the prompt; the generic one
    has exactly [model], [input] (the prompt), [max_tokens] and [stream]
    (always false).  [temperature] is one more key exactly when the caller
    supplies it, and then holds the caller's value. *)
Theorem payload_wire_format :
  (forall self prompt model max_tokens temperature,
     dom (OpenAI.payload self prompt model max_tokens temperature)
     = ({[ "model"; "messages"; "max_tokens" ]}
        ∪ match temperature with Some _ => {[ "temperature" ]} | None => ∅ end : gset string)
     /\ OpenAI.payload self prompt model max_tokens temperature !! "messages"
        = Some (PList [PDict (<["role" := PStr "user"]>
                               (<["content" := PStr prompt]> ∅))])
     /\ OpenAI.payload self prompt model max_tokens temperature !! "temperature"
        = PFloat <$> temperature)
  /\ (forall self prompt model max_tokens temperature,
        dom (HTTPAdapter.payload self prompt model max_tokens temperature)
        = ({[ "model"; "input"; "max_tokens"; "stream" ]}
           ∪ match temperature with Some _ => {[ "temperature" ]} | None => ∅ end : gset string)
        /\ HTTPAdapter.payload self prompt model max_tokens temperature !! "input"
           = Some (PStr prompt)
        /\ HTTPAdapter.payload self prompt model max_tokens temperature !! "stream"
           = Some (PBool false)
        /\ HTTPAdapter.payload self prompt model max_tokens temperature
           !! "temperature"
           = PFloat <$> temperature).
Proof.
  split; intros self prompt model max_tokens temperature.
  - unfold OpenAI.payload. destruct temperature as [t|]; cbv zeta;
      (split; [rewrite !dom_insert_L; set_solver | split; by simplify_map_eq]).
  - unfold HTTPAdapter.payload. destruct temperature as [t|]; cbv zeta;
      (split; [rewrite !dom_insert_L; set_solver | repeat split; by simplify_map_eq]).
Qed.

(** ** The generic adapter on unusual bodies *)

Lemma openai_result_model_in_body
    send self prompt model max_tokens temperature data r :
  send (OpenAI.request self prompt model max_tokens temperature) = Ok data ->
  OpenAI.complete send self prompt model max_tokens temperature = Ok r ->
  exists m mo, data = PDict m /\ m !! "model" = Some mo /\ mo = Base.model r.
Proof.
  intros Hsend Hr. unfold OpenAI.complete in Hr. rewrite Hsend, bind_Ok in Hr.
  apply openai_parse_Ok_inv in Hr
    as (m & rest & cm & mm & content & i & mo & um & -> & ? & ? & ? & ? & ? & ? & ->).
  by exists m, mo.
Qed.


(** X7. The model of the generic adapter's result is the model it requested
    (override, else configured default, else "default"), whatever the body
    holds, a [model] field of the body included; the OpenAI-style adapter's
    is the body's [model], whatever was requested. *)
Theorem result_model_origin :
  (forall send self prompt model max_tokens temperature m r,
     send (HTTPAdapter.request self prompt model max_tokens temperature)
     = Ok (PDict m) ->
     HTTPAdapter.complete send self prompt model max_tokens temperature = Ok r ->
     HTTPAdapter.payload self prompt model max_tokens temperature !! "model"
     = Some (Base.model r)
     /\ Base.model r
        = PStr (or_default (py_or model (Config.model (HTTPAdapter.config self)))
                           "default"))
  /\ (forall send self prompt model max_tokens temperature data r,
        send (OpenAI.request self prompt model max_tokens temperature) = Ok data ->
        OpenAI.complete send self prompt model max_tokens temperature = Ok r ->
        exists m, data = PDict m /\ m !! "model" = Some (Base.model r)).
Proof.
  split.
  - intros send self prompt model max_tokens temperature m r Hsend Hr.
    rewrite (http_complete_dict _ _ _ _ _ _ _ Hsend) in Hr.
    apply bind_Ok_inv in Hr as (u & _ & [= <-]). simpl.
    split; [apply http_payload_model | reflexivity].
  - intros send self prompt model max_tokens temperature data r Hsend Hr.
    destruct (openai_result_model_in_body _ _ _ _ _ _ _ _ Hsend Hr)
      as (m & mo & -> & Hmo & <-).
    by exists m.
Qed.

Lemma result_model_origin_witness :
  HTTPAdapter.complete
    (Tests.respond (<["model" := PStr "another-model"]> Tests.http_response))
    Tests.http_provider "Test prompt" None None None
  = Ok {| Base.id := PStr "local-789";
          Base.text := PStr "Response from local MCP";
          Base.model := PStr "local-model";
          Base.usage :=
            Some {| Base.prompt_tokens := PInt 12;
                    Base.completion_tokens := PInt 8;
                    Base.total_tokens := PInt 20 |} |}
  /\ PStr "local-model" = PStr "local-model".
Proof.
  assert (H : HTTPAdapter.complete
                (Tests.respond (<["model" := PStr "another-model"]> Tests.http_response))
                Tests.http_provider "Test prompt" None None None
              = Ok {| Base.id := PStr "local-789";
                      Base.text := PStr "Response from local MCP";
                      Base.model := PStr "local-model";
                      Base.usage :=
                        Some {| Base.prompt_tokens := PInt 12;
                                Base.completion_tokens := PInt 8;
                                Base.total_tokens := PInt 20 |} |})
    by (vm_compute; reflexivity).
  split; [exact H|].
  exact (proj2 (proj1 result_model_origin
                  (Tests.respond (<["model" := PStr "another-model"]>
                                    Tests.http_response))
                  Tests.http_provider "Test prompt" None None None
                  (<["model" := PStr "another-model"]> Tests.http_response) _
                  eq_refl H)).
Defined.

(** X8. The generic adapter on a body it cannot read.  A body that is no
    dict is an [AttributeError].  A [token_usage] that is false (null, an
    empty dict or list, 0, an empty string) gives a result without usage; one
    that is true but no dict is an [AttributeError]; a non-empty dict whose
    counts Python cannot add makes [complete] raise what the addition
    raises. *)
Theorem http_complete_unusual_bodies
    send self prompt model max_tokens temperature data :
  send (HTTPAdapter.request self prompt model max_tokens temperature) = Ok data ->
  ((forall m, data <> PDict m) ->
   HTTPAdapter.complete send self prompt model max_tokens temperature
   = Raise AttributeError)
  /\ (forall m ud,
        data = PDict m ->
        m !! "token_usage" = Some ud ->
        (truthy ud = false ->
         exists r,
           HTTPAdapter.complete send self prompt model max_tokens temperature
           = Ok r
           /\ Base.usage r = None)
        /\ (truthy ud = true -> (forall um, ud <> PDict um) ->
            HTTPAdapter.complete send self prompt model max_tokens temperature
            = Raise AttributeError)
        /\ (forall um e,
              ud = PDict um -> um <> ∅ ->
              add (count um "prompt") (count um "completion") = Raise e ->
              HTTPAdapter.complete send self prompt model max_tokens temperature
              = Raise e)).
Proof.
  intros Hsend. split.
  - intros Hnd. unfold HTTPAdapter.complete. cbv zeta. rewrite Hsend, bind_Ok.
    destruct data as [| | | | | |m]; try reflexivity. by destruct (Hnd m).
  - intros m ud -> Hud. rewrite (http_complete_dict _ _ _ _ _ _ _ Hsend).
    unfold HTTPAdapter.parse_usage. rewrite get_dict, Hud, bind_Ok.
    cbn [default from_option id]. split; [|split].
    + intros ->. eexists. split; reflexivity.
    + intros -> Hnd. destruct ud as [| | | | | |um]; try reflexivity.
      by destruct (Hnd um).
    + intros um e -> Hne Hadd. apply truthy_dict in Hne. rewrite Hne.
      rewrite !get_dict, !bind_Ok.
      fold (count um "prompt") (count um "completion"). by rewrite Hadd.
Qed.

Lemma http_complete_unusual_bodies_witness :
  HTTPAdapter.complete
    (Tests.respond (<["token_usage" := PNone]> Tests.http_response))
    Tests.http_provider "Test prompt" None None None
  = Ok {| Base.id := PStr "local-789";
          Base.text := PStr "Response from local MCP";
          Base.model := PStr "local-model"; Base.usage := None |}
  /\ HTTPAdapter.complete
       (Tests.respond (<["token_usage" := PInt 20]> Tests.http_response))
       Tests.http_provider "Test prompt" None None None
     = Raise AttributeError.
Proof.
  split; [vm_compute; reflexivity|].
  exact (proj1 (proj2 (proj2 (http_complete_unusual_bodies
           (Tests.respond (<["token_usage" := PInt 20]> Tests.http_response))
           Tests.http_provider "Test prompt" None None None _ eq_refl)
           (<["token_usage" := PInt 20]> Tests.http_response) (PInt 20)
           eq_refl eq_refl)) eq_refl ltac:(discriminate)).
Defined.

(** ** Looking up a provider *)

(** X9. [AgentConfig.get_provider] falls back to the default provider only
    when no name (or an empty one) is given: a non-empty name is looked up
    as it is.  So the dispatcher, asked for a non-empty name that is not
    configured, raises "Provider '<name>' not found in config. Available: "
    followed by the configured names in the order in which the dict received
    them, whatever the default provider and the environment are; asked for
    the empty name
    it gives what it gives for the default provider, when that one is
    configured. *)
Theorem get_provider_fallback (order : Cli.key_order) (config : Config.AgentConfig) :
  Config.get_provider config None
  = Config.providers config !! Config.default_provider config
  /\ Config.get_provider config (Some "")
     = Config.providers config !! Config.default_provider config
  /\ (forall c s,
        Config.get_provider config (Some (String c s))
        = Config.providers config !! String c s)
  /\ (forall c s env,
        Config.providers config !! String c s = None ->
        Cli.get_provider order (String c s) config env
        = Raise (ValueError ("Provider '" +:+ String c s
                             +:+ "' not found in config. Available: "
                             +:+ String.concat ", " (Cli.provider_names order config))))
  /\ (forall env,
        is_Some (Config.providers config !! Config.default_provider config) ->
        Cli.get_provider order "" config env
        = Cli.get_provider order (Config.default_provider config) config env).
Proof.
  split; [reflexivity|]. split; [reflexivity|]. split; [reflexivity|]. split.
  - intros c s env H. unfold Cli.get_provider.
    change (Config.get_provider config (Some (String c s)))
      with (Config.providers config !! String c s).
    by rewrite H.
  - intros env [pc Hpc].
    assert (H1 : Config.get_provider config (Some "") = Some pc) by exact Hpc.
    assert (H2 : Config.get_provider config (Some (Config.default_provider config))
                 = Some pc).
    { unfold Config.get_provider.
      by destruct (Config.default_provider config) eqn:Hd; simpl; rewrite <- ?Hd. }
    by rewrite (get_provider_dispatch _ _ env _ H1),
               (get_provider_dispatch _ _ env _ H2).
Qed.

(** The names the message lists are the configured ones, each once, by
    increasing position: the list of the dict's keys, whatever order the
    finite map has. *)
Lemma provider_names_keys {order : Cli.key_order} (config : Config.AgentConfig) :
  (forall name,
     name ∈ Cli.provider_names order config
     <-> is_Some (Config.providers config !! name))
  /\ NoDup (Cli.provider_names order config)
  /\ Sorted (Cli.arrived_before order) (Cli.provider_names order config).
Proof.
  unfold Cli.provider_names.
  pose proof (merge_sort_Permutation (Cli.arrived_before order)
                (map_to_list (Config.providers config)).*1) as Hperm.
  split; [|split].
  - intros name. rewrite Hperm, list_elem_of_fmap. split.
    + intros ([k pc] & -> & H). apply elem_of_map_to_list in H. by exists pc.
    + intros [pc H]. exists (name, pc). split; [reflexivity|].
      by apply elem_of_map_to_list.
  - rewrite Hperm. apply NoDup_fst_map_to_list.
  - apply Sorted_merge_sort. intros a b. unfold Cli.arrived_before. lia.
Qed.

Lemma provider_names_empty {order : Cli.key_order} (config : Config.AgentConfig) :
  Config.providers config = ∅ -> Cli.provider_names order config = [].
Proof. unfold Cli.provider_names. intros ->. by rewrite map_to_list_empty. Qed.

(** X10. Without a configuration file the [call] command cannot reach any
    provider: whatever the provider name, the environment and the transport,
    it ends in the error "Provider '<name>' not found in config.
    Available: " with an empty list of names, the name being the given one,
    or "openai" when none (or an empty one) is given. *)
Theorem call_without_config_file
    {text : Type} (safe_load : text -> result pyval)
    (lax : Config.conversions) (order : Cli.key_order)
    (fs : gmap string text) home config_path :
  fs !! default (Config.get_config_path home) config_path = None ->
  forall send env prompt provider_name model max_tokens,
    Cli._call safe_load lax order send fs home env prompt provider_name config_path
      model max_tokens
    = Raise (ValueError ("Provider '" +:+ or_default provider_name "openai"
                         +:+ "' not found in config. Available: ")).
Proof.
  intros Hfs send env prompt provider_name model max_tokens.
  unfold Cli._call, Config.load. cbv zeta. rewrite Hfs, bind_Ok.
  unfold Cli.call, Cli.get_provider. cbv zeta.
  rewrite call_get_provider. unfold Config.get_provider.
  cbn [Config.providers Config.AgentConfig_default Config.default_provider].
  rewrite lookup_empty, provider_names_empty by reflexivity.
  reflexivity.
Qed.

Lemma call_without_config_file_witness :
  (∅ : gmap string pyval) !! default (Config.get_config_path "/home/user") None = None
  /\ Cli._call Ok Tests.strict Tests.by_code
       (Tests.respond Tests.openai_response) (∅ : gmap string pyval)
       "/home/user" Tests.openai_env "Test prompt" None None None None
     = Raise (ValueError "Provider 'openai' not found in config. Available: ").
Proof.
  split; [apply lookup_empty|].
  exact (call_without_config_file Ok Tests.strict Tests.by_code ∅
           "/home/user" None (lookup_empty _)
           (Tests.respond Tests.openai_response) Tests.openai_env
           "Test prompt" None None None).
Defined.

(** ** Configuration files *)

(** X11. A configuration file whose document is false (an empty file, which
    loads as [None], an empty mapping or list, 0) is read as the defaults,
    like a missing file; a document that is true but no mapping is a
    [TypeError]; and a file that PyYAML cannot read makes [load] raise
    PyYAML's error. *)
Theorem load_unusual_documents
    {text : Type} (safe_load : text -> result pyval) (lax : Config.conversions)
    (fs : gmap string text) home config_path (f : text) :
  fs !! default (Config.get_config_path home) config_path = Some f ->
  (forall v, safe_load f = Ok v -> truthy v = false ->
     Config.load safe_load lax fs home config_path = Ok Config.AgentConfig_default)
  /\ (forall v, safe_load f = Ok v -> truthy v = true -> (forall m, v <> PDict m) ->
        Config.load safe_load lax fs home config_path = Raise TypeError)
  /\ (forall e, safe_load f = Raise e ->
        Config.load safe_load lax fs home config_path = Raise e).
Proof.
  intros Hfs. unfold Config.load. cbv zeta. rewrite Hfs. split; [|split].
  - intros v -> Hv. rewrite bind_Ok. unfold py_or. by rewrite Hv.
  - intros v -> Hv Hnd. rewrite bind_Ok. unfold py_or. rewrite Hv.
    destruct v as [| | | | | |m]; try reflexivity. by destruct (Hnd m).
  - by intros e ->.
Qed.

Lemma load_unusual_documents_witness :
  ({[ "/tmp/config.yaml" := PNone ]} : gmap string pyval)
    !! default (Config.get_config_path "/home/user") (Some "/tmp/config.yaml")
  = Some PNone
  /\ Config.load Ok Tests.strict
       ({[ "/tmp/config.yaml" := PNone ]} : gmap string pyval)
       "/home/user" (Some "/tmp/config.yaml")
     = Ok Config.AgentConfig_default.
Proof.
  split; [reflexivity|].
  exact (proj1 (load_unusual_documents Ok Tests.strict
                  {[ "/tmp/config.yaml" := PNone ]}
                  "/home/user" (Some "/tmp/config.yaml") PNone eq_refl)
           PNone eq_refl eq_refl).
Defined.

Lemma bind_Raise_inv {A B} (f : A -> result B) (x : result A) (e : exn) :
  (x ≫= f) = Raise e -> x = Raise e \/ exists a, x = Ok a /\ f a = Raise e.
Proof. destruct x as [a|e']; simpl; [eauto | intros [= ->]; by left]. Qed.

Lemma validate_str_raises (x : pyval) (e : exn) :
  Config.validate_str x = Raise e -> e = ValidationError.
Proof. destruct x; simpl; congruence. Qed.

Lemma validate_int_raises {lax : Config.conversions} (x : pyval) (e : exn) :
  Config.validate_int lax x = Raise e -> e = ValidationError.
Proof.
  unfold Config.validate_int, Config.converted.
  destruct x; try discriminate; destruct (Config.to_int lax _); congruence.
Qed.

Lemma optional_raises {A} (validate : pyval -> result A) (x : pyval) (e : exn) :
  (forall y e', validate y = Raise e' -> e' = ValidationError) ->
  Config.optional validate x = Raise e -> e = ValidationError.
Proof.
  intros Hv. unfold Config.optional.
  destruct x; try discriminate;
    (match goal with |- Some <$> ?r = _ -> _ => destruct r eqn:Hr end;
     [discriminate | intros [= <-]; by eapply Hv]).
Qed.

Lemma field_raises {A} (m : gmap string pyval) (key : string)
    (validate : pyval -> result A) (dflt : result A) (e : exn) :
  (forall y e', validate y = Raise e' -> e' = ValidationError) ->
  (forall e', dflt = Raise e' -> e' = ValidationError) ->
  Config.field m key validate dflt = Raise e -> e = ValidationError.
Proof. intros Hv Hd. unfold Config.field. destruct (m !! key); eauto. Qed.

Lemma ProviderConfig_validate_raises {lax : Config.conversions} (v : pyval) (e : exn) :
  Config.ProviderConfig_validate lax v = Raise e -> e = ValidationError.
Proof.
  destruct v as [| | | | | |m]; simpl; try congruence. intros H.
  repeat (apply bind_Raise_inv in H as [H | (? & _ & H)];
          [eapply field_raises; [| |exact H];
           first [ apply validate_str_raises | apply validate_int_raises
                 | intros ? ?; apply optional_raises;
                   first [apply validate_str_raises | apply validate_int_raises]
                 | congruence | discriminate ] |]).
  discriminate.
Qed.

Lemma ProviderConfig_validate_no_base_url {lax : Config.conversions}
    (xm : gmap string pyval) :
  xm !! "base_url" = None ->
  Config.ProviderConfig_validate lax (PDict xm) = Raise ValidationError.
Proof. intros H. unfold Config.ProviderConfig_validate, Config.field. by rewrite H. Qed.

Lemma validate_providers_raises {lax : Config.conversions} (m : gmap string pyval) :
  (forall e', Config.validate_providers lax (PDict m) = Raise e' -> e' = ValidationError)
  /\ ((exists k x e, m !! k = Some x
                     /\ Config.ProviderConfig_validate lax x = Raise e) ->
      Config.validate_providers lax (PDict m) = Raise ValidationError).
Proof.
  unfold Config.validate_providers. revert m.
  apply (map_fold_weak_ind
           (fun (r : result (gmap string Config.ProviderConfig))
                (m : gmap string pyval) =>
              (forall e', r = Raise e' -> e' = ValidationError)
              /\ ((exists k x e, m !! k = Some x
                                 /\ Config.ProviderConfig_validate lax x = Raise e) ->
                  r = Raise ValidationError))).
  - split; [discriminate|]. intros (k & x & e & Hk & _).
    by rewrite lookup_empty in Hk.
  - intros i x m r Hi [IH1 IH2].
    assert (Hstep : forall e',
              (ps ← r; p ← Config.ProviderConfig_validate lax x; Ok (<[i := p]> ps))
              = Raise e' -> e' = ValidationError).
    { intros e' H. apply bind_Raise_inv in H as [H | (ps & _ & H)]; [by apply IH1|].
      apply bind_Raise_inv in H as [H | (p & _ & H)]; [|discriminate].
      by eapply ProviderConfig_validate_raises. }
    split; [exact Hstep|].
    intros (k & x' & e & Hk & Hx').
    destruct (decide (i = k)) as [<- | Hne].
    + rewrite lookup_insert_eq in Hk. injection Hk as <-.
      destruct r as [ps|e'] eqn:Hr.
      * rewrite bind_Ok, Hx'. simpl. f_equal.
        by eapply ProviderConfig_validate_raises.
      * simpl. f_equal. by apply IH1.
    + rewrite lookup_insert_ne in Hk by done.
      rewrite IH2 by eauto. reflexivity.
Qed.

Lemma validate_providers_bad_entry {lax : Config.conversions}
    (m : gmap string pyval) k x e :
  m !! k = Some x ->
  Config.ProviderConfig_validate lax x = Raise e ->
  Config.validate_providers lax (PDict m) = Raise ValidationError.
Proof. intros Hk Hx. apply validate_providers_raises. eauto. Qed.

(** X12. One provider entry that is no mapping, or that is a mapping
    without [base_url], makes the whole configuration file invalid: [load]
    raises the validation error, also when that provider is never asked for,
    and whatever pydantic converts in the other fields. *)
Theorem load_rejects_bad_provider_entry
    {text : Type} (safe_load : text -> result pyval) (lax : Config.conversions)
    (fs : gmap string text) home config_path (f : text)
    (d m : gmap string pyval) (k : string) (x : pyval) :
  fs !! default (Config.get_config_path home) config_path = Some f ->
  safe_load f = Ok (PDict d) ->
  d !! "providers" = Some (PDict m) ->
  m !! k = Some x ->
  ((forall xm, x <> PDict xm)
   \/ (exists xm, x = PDict xm /\ xm !! "base_url" = None)) ->
  Config.load safe_load lax fs home config_path = Raise ValidationError.
Proof.
  intros Hfs Hload Hps Hk Hx.
  assert (Hbad : exists e, Config.ProviderConfig_validate lax x = Raise e).
  { destruct Hx as [Hnd | (xm & -> & Hxm)].
    - exists ValidationError. destruct x as [| | | | | |xm]; try reflexivity.
      by destruct (Hnd xm).
    - exists ValidationError. by apply ProviderConfig_validate_no_base_url. }
  destruct Hbad as [e Hbad].
  unfold Config.load. cbv zeta. rewrite Hfs, Hload, bind_Ok.
  assert (Hd : d <> ∅) by (intros ->; by rewrite lookup_empty in Hps).
  unfold py_or. apply truthy_dict in Hd. rewrite Hd.
  unfold Config.AgentConfig_new.
  destruct (Config.field d "default_provider" Config.validate_str (Ok "openai"))
    as [dp|e'] eqn:Hdp.
  - rewrite bind_Ok. unfold Config.field at 1. rewrite Hps.
    by rewrite (validate_providers_bad_entry m k x e Hk Hbad).
  - simpl. f_equal. eapply field_raises; [| |exact Hdp];
      [apply validate_str_raises | discriminate].
Qed.

Lemma load_rejects_bad_provider_entry_witness :
  Config.load Ok Tests.strict
    ({[ "/tmp/config.yaml" :=
          PDict {[ "providers" :=
                     PDict {[ "broken" := PDict {[ "model" := PStr "m" ]} ]} ]} ]}
       : gmap string pyval)
    "/home/user" (Some "/tmp/config.yaml")
  = Raise ValidationError.
Proof.
  apply (load_rejects_bad_provider_entry Ok Tests.strict _
           "/home/user" (Some "/tmp/config.yaml")
           (PDict {[ "providers" :=
                       PDict {[ "broken" := PDict {[ "model" := PStr "m" ]} ]} ]})
           {[ "providers" := PDict {[ "broken" := PDict {[ "model" := PStr "m" ]} ]} ]}
           {[ "broken" := PDict {[ "model" := PStr "m" ]} ]}
           "broken" (PDict {[ "model" := PStr "m" ]}));
    [reflexivity | reflexivity | reflexivity | reflexivity |].
  right. exists {[ "model" := PStr "m" ]}. split; reflexivity.
Defined.

(** ** Saving, and the [init] command *)

Section MoreStorage.
Context {text : Type}.
Variable safe_dump : pyval -> text.
Variable safe_load : text -> result pyval.
Variable lax : Config.conversions.
Variable order : Cli.key_order.

Hypothesis safe_load_dump :
  forall c, safe_load (safe_dump (Config.model_dump c)) = Ok (Config.model_dump c).

Lemma load_after_save_eq (self : Config.AgentConfig) fs home config_path :
  Config.load safe_load lax (Config.save safe_dump self fs home config_path)
    home config_path
  = Ok self.
Proof using safe_load_dump.
  unfold Config.load, Config.save. cbv zeta.
  rewrite lookup_insert_eq, safe_load_dump, bind_Ok, model_dump_truthy.
  apply AgentConfig_new_dump.
Qed.

(** X13. Saving writes one file only and replaces what was there: loading
    from another path gives what it gave before the save, and after two
    saves to the same path loading gives the configuration saved last.
    PyYAML is taken to read back the document it wrote. *)
Theorem save_writes_one_file (c1 c2 : Config.AgentConfig) fs home p q :
  (default (Config.get_config_path home) p
   <> default (Config.get_config_path home) q ->
   Config.load safe_load lax (Config.save safe_dump c1 fs home p) home q
   = Config.load safe_load lax fs home q)
  /\ Config.load safe_load lax
       (Config.save safe_dump c2 (Config.save safe_dump c1 fs home p) home p)
       home p
     = Ok c2.
Proof using safe_load_dump.
  split; [|apply load_after_save_eq].
  intros Hne. unfold Config.load, Config.save. cbv zeta.
  by rewrite lookup_insert_ne.
Qed.

(** X14. The [init] command never overwrites a configuration file unless
    forced: on an existing file without [--force] it leaves every file as it
    is.  Otherwise it changes that one file only, and loading from the path
    then gives the configuration of [create_default_config]. *)
Theorem init_writes_default_config fs home config_path force :
  (is_Some (fs !! default (Config.get_config_path home) config_path) ->
   force = false ->
   Cli.init safe_dump fs home config_path force = fs)
  /\ (fs !! default (Config.get_config_path home) config_path = None
      \/ force = true ->
      Config.load safe_load lax (Cli.init safe_dump fs home config_path force)
        home config_path
      = Ok Config.create_default_config
      /\ forall q, q <> default (Config.get_config_path home) config_path ->
           Cli.init safe_dump fs home config_path force !! q = fs !! q).
Proof using safe_load_dump.
  unfold Cli.init. cbv zeta. split.
  - intros Hex ->. by rewrite bool_decide_eq_true_2.
  - intros Hor.
    assert (bool_decide
              (is_Some (fs !! default (Config.get_config_path home) config_path))
            && negb force = false) as ->.
    { destruct Hor as [Hnone | ->]; [|by rewrite andb_false_r].
      rewrite bool_decide_eq_false_2; [done|]. rewrite Hnone. by intros [? ?]. }
    split.
    + unfold Config.load, Config.save. cbv zeta. simpl default at 2.
      destruct config_path as [cp|]; simpl;
        rewrite lookup_insert_eq, safe_load_dump, bind_Ok, model_dump_truthy;
        apply AgentConfig_new_dump.
    + intros q Hq. unfold Config.save. cbv zeta. simpl default at 1.
      by rewrite lookup_insert_ne.
Qed.

(** X15. From [init] to [call].  After [init] in a place without a
    configuration file, a [call] without a provider name goes to the
    OpenAI-style adapter on [https://api.openai.com] with the configured
    defaults (model "gpt-4", [max_tokens] 1024) when [OPENAI_API_KEY] is set
    to a non-empty value, and without that variable it ends in the
    missing-key error before any exchange. *)
Theorem call_after_init home config_path send env prompt :
  (forall c s,
     env !! "OPENAI_API_KEY" = Some (String c s) ->
     Cli._call safe_load lax order send (Cli.init safe_dump ∅ home config_path false)
       home env prompt None config_path None None
     = OpenAI.complete send
         {| OpenAI.config := Tests.openai_default_config;
            OpenAI.api_key := Some (String c s) |}
         prompt None None None
     /\ OpenAI.payload
          {| OpenAI.config := Tests.openai_default_config;
             OpenAI.api_key := Some (String c s) |}
          prompt None None None
        = <["model" := PStr "gpt-4"]>
          (<["messages" :=
              PList [PDict (<["role" := PStr "user"]>
                            (<["content" := PStr prompt]> ∅))]]>
          (<["max_tokens" := PInt 1024]> ∅)))
  /\ (env !! "OPENAI_API_KEY" = None ->
      Cli._call safe_load lax order send (Cli.init safe_dump ∅ home config_path false)
        home env prompt None config_path None None
      = Raise (ValueError
                 "API key not found. Set environment variable: OPENAI_API_KEY")).
Proof using safe_load_dump.
  assert (Hload : Config.load safe_load lax
                    (Cli.init safe_dump ∅ home config_path false) home config_path
                  = Ok Config.create_default_config).
  { apply init_writes_default_config. left. apply lookup_empty. }
  unfold Cli._call. rewrite Hload, bind_Ok.
  unfold Cli.call. cbv zeta.
  assert (Hpc : Config.get_provider Config.create_default_config
                  (Some (or_default None
                           (Config.default_provider Config.create_default_config)))
                = Some Tests.openai_default_config) by (vm_compute; reflexivity).
  rewrite (get_provider_dispatch _ _ env _ Hpc).
  assert (contains "openai.com" (lower (Config.base_url Tests.openai_default_config))
          = true) as -> by reflexivity.
  split.
  - intros c s Hkey. split; [|reflexivity].
    rewrite (openai_init_key Tests.openai_default_config env c s); [reflexivity|].
    unfold Config.get_api_key, Config.getenv. simpl. exact Hkey.
  - intros Hkey.
    rewrite (openai_init_no_key Tests.openai_default_config env); [reflexivity|].
    left. unfold Config.get_api_key, Config.getenv. simpl. exact Hkey.
Qed.

End MoreStorage.

Lemma save_writes_one_file_witness :
  Config.load Ok Tests.strict
    (Config.save (fun v => v) Config.create_default_config ∅ "/home/user"
       (Some "/tmp/a.yaml"))
    "/home/user" (Some "/tmp/b.yaml")
  = Config.load Ok Tests.strict (∅ : gmap string pyval)
      "/home/user" (Some "/tmp/b.yaml").
Proof.
  apply (proj1 (save_writes_one_file (fun v => v) Ok Tests.strict
                  (fun c => eq_refl)
                  Config.create_default_config Config.create_default_config
                  ∅ "/home/user" (Some "/tmp/a.yaml") (Some "/tmp/b.yaml"))).
  simpl. intros [= H]. 
Defined.

Lemma init_writes_default_config_witness :
  Cli.init (fun v => v) ({[ "/tmp/a.yaml" := PNone ]} : gmap string pyval)
    "/home/user" (Some "/tmp/a.yaml") false
  = {[ "/tmp/a.yaml" := PNone ]}
  /\ Config.load Ok Tests.strict
       (Cli.init (fun v => v) ({[ "/tmp/a.yaml" := PNone ]} : gmap string pyval)
          "/home/user" (Some "/tmp/a.yaml") true)
       "/home/user" (Some "/tmp/a.yaml")
     = Ok Config.create_default_config.
Proof.
  split.
  - apply (proj1 (init_writes_default_config (fun v => v) Ok Tests.strict
                    (fun c => eq_refl)
                    {[ "/tmp/a.yaml" := PNone ]} "/home/user"
                    (Some "/tmp/a.yaml") false));
      [by exists PNone | reflexivity].
  - apply (proj2 (init_writes_default_config (fun v => v) Ok Tests.strict
                    (fun c => eq_refl)
                    {[ "/tmp/a.yaml" := PNone ]} "/home/user"
                    (Some "/tmp/a.yaml") true)).
    by right.
Defined.

Lemma call_after_init_witness :
  Cli._call Ok Tests.strict Tests.by_code (Tests.respond Tests.openai_response)
    (Cli.init (fun v => v) ∅ "/home/user" None false)
    "/home/user" Tests.openai_env "Test prompt" None None None None
  = OpenAI.complete (Tests.respond Tests.openai_response)
      {| OpenAI.config := Tests.openai_default_config;
         OpenAI.api_key := Some "test-key" |}
      "Test prompt" None None None.
Proof.
  exact (proj1 (proj1 (call_after_init (fun v => v) Ok Tests.strict Tests.by_code
                         (fun c => eq_refl)
                         "/home/user" None (Tests.respond Tests.openai_response)
                         Tests.openai_env "Test prompt")
                  "t"%char "est-key" eq_refl)).
Defined.

(** ** The dispatcher and letter case *)

Lemma generic_adapter_for_other_domains {order : Cli.key_order} name config env pc :
  Config.get_provider config (Some name) = Some pc ->
  ~ substring "openai.com" (lower (Config.base_url pc)) ->
  ~ substring "anthropic.com" (lower (Config.base_url pc)) ->
  Cli.get_provider order name config env
  = Ok (Cli.HTTPProvider {| HTTPAdapter.config := pc |}).
Proof.
  intros H Ho Ha. rewrite (get_provider_dispatch _ _ env _ H).
  rewrite <- contains_substring in Ho, Ha.
  destruct (contains "openai.com" _); [done|].
  by destruct (contains "anthropic.com" _).
Qed.


(** X16. The dispatcher ignores letter case: a base URL in which
    "openai.com" occurs in any mix of capitals and small letters selects
    the OpenAI-style adapter, and one in which only "anthropic.com" occurs
    so selects the Anthropic-style adapter. *)
Theorem dispatcher_ignores_case (order : Cli.key_order) name config env pc a x b :
  Config.get_provider config (Some name) = Some pc ->
  Config.base_url pc = a +:+ x +:+ b ->
  (lower x = "openai.com" ->
   Cli.get_provider order name config env
   = Cli.OpenAIProvider <$> OpenAI.__init__ pc env)
  /\ (lower x = "anthropic.com" ->
      ~ substring "openai.com" (lower (Config.base_url pc)) ->
      Cli.get_provider order name config env
      = Cli.AnthropicProvider <$> Anthropic.__init__ pc env).
Proof.
  intros Hpc Hurl.
  assert (Hsub : forall d, lower x = d -> substring d (lower (Config.base_url pc))).
  { intros d <-. exists (lower a), (lower b). by rewrite Hurl, !lower_app. }
  rewrite (get_provider_dispatch _ _ env _ Hpc). split.
  - intros Hx. apply Hsub, contains_substring in Hx. by rewrite Hx.
  - intros Hx Hno. apply Hsub, contains_substring in Hx.
    rewrite <- contains_substring in Hno.
    destruct (contains "openai.com" _); [done|]. by rewrite Hx.
Qed.

Lemma dispatcher_ignores_case_witness :
  Cli.get_provider Tests.by_code "capitals" Tests.capitals_config Tests.openai_env
  = Cli.OpenAIProvider <$> OpenAI.__init__ Tests.capitals_provider Tests.openai_env.
Proof.
  exact (proj1 (dispatcher_ignores_case Tests.by_code "capitals"
                  Tests.capitals_config Tests.openai_env Tests.capitals_provider
                  "HTTPS://API." "OPENAI.COM" "/" eq_refl eq_refl) eq_refl).
Defined.

(** X17. A provider whose base URL names neither vendor domain is served by
    the generic adapter, also when it is an OpenAI-compatible service with a
    configured credential: the construction does not read the credential,
    and no request of that provider carries it, the only header being the
    content type. *)
Theorem other_domains_get_no_credential (order : Cli.key_order) name config env pc :
  Config.get_provider config (Some name) = Some pc ->
  ~ substring "openai.com" (lower (Config.base_url pc)) ->
  ~ substring "anthropic.com" (lower (Config.base_url pc)) ->
  Cli.get_provider order name config env
  = Ok (Cli.HTTPProvider {| HTTPAdapter.config := pc |})
  /\ forall send prompt model max_tokens temperature,
       Cli.complete send (Cli.HTTPProvider {| HTTPAdapter.config := pc |})
         prompt model max_tokens temperature
       = (data ← send
            {| Http.url := Config.base_url pc +:+ "/v1/completions";
               Http.json :=
                 HTTPAdapter.payload {| HTTPAdapter.config := pc |}
                   prompt model max_tokens temperature;
               Http.headers := [("Content-Type", "application/json")];
               Http.timeout := Config.timeout pc |};
          HTTPAdapter.parse
            (HTTPAdapter.payload {| HTTPAdapter.config := pc |}
               prompt model max_tokens temperature)
            data).
Proof.
  intros Hpc Ho Ha. split; [|reflexivity].
  by apply generic_adapter_for_other_domains.
Qed.

Lemma other_domains_get_no_credential_witness :
  Config.get_api_key Tests.proxy_provider Tests.openai_env = Some "test-key"
  /\ Cli.get_provider Tests.by_code "proxy" Tests.proxy_config Tests.openai_env
     = Ok (Cli.HTTPProvider {| HTTPAdapter.config := Tests.proxy_provider |}).
Proof.
  split; [reflexivity|].
  refine (proj1 (other_domains_get_no_credential Tests.by_code "proxy"
                   Tests.proxy_config Tests.openai_env Tests.proxy_provider eq_refl _ _)).
  - intros H. apply contains_substring in H. discriminate H.
  - intros H. apply contains_substring in H. discriminate H.
Defined.

(** ** The session as a growing transcript *)

Lemma string_append_assoc (a b c : string) : (a +:+ b) +:+ c = a +:+ b +:+ c.
Proof.
  induction a as [|x a IH]; [reflexivity|].
  change (String x ((a +:+ b) +:+ c) = String x (a +:+ b +:+ c)). by f_equal.
Qed.

Lemma concat_app_nonempty (sep : string) (l1 l2 : list string) :
  l1 <> [] -> l2 <> [] ->
  String.concat sep (l1 ++ l2)
  = String.concat sep l1 +:+ sep +:+ String.concat sep l2.
Proof.
  intros H1 H2. induction l1 as [|x l1 IH]; [done|].
  destruct l1 as [|y l1].
  - destruct l2 as [|z l2]; [done|]. reflexivity.
  - change (String.concat sep ((x :: y :: l1) ++ l2))
      with (x +:+ sep +:+ String.concat sep ((y :: l1) ++ l2)).
    rewrite IH by done.
    change (String.concat sep (x :: y :: l1))
      with (x +:+ sep +:+ String.concat sep (y :: l1)).
    by rewrite !string_append_assoc.
Qed.

Lemma format_for_display_messages (s : Session.Session) :
  Session.format_for_display s
  = String.concat nl
      (map (fun msg =>
              (if String.eqb (Session.role msg) "user" then "User:" else "Assistant:")
              +:+ " " +:+ Session.content msg)
           (Session.messages s)).
Proof. reflexivity. Qed.

(** X18. A session only grows at its end.  Whatever it holds (messages of
    any role included), after any sequence of [add_user_message] and
    [add_assistant_message] calls the old history is the beginning of the new
    one, the history is longer by the number of calls, and the display of a
    non-empty session after at least one call is the old display, a line
    feed, and the lines of the new messages.  After [clear] the session
    behaves as a fresh one. *)
Theorem session_grows_at_the_end (s : Session.Session) (calls : list Session.call) :
  Session.get_history (Session.run calls s)
  = (Session.get_history s ++ map Session.message_of calls)%list
  /\ Session.get_history s `prefix_of` Session.get_history (Session.run calls s)
  /\ length (Session.get_history (Session.run calls s))
     = (length (Session.get_history s) + length calls)%nat
  /\ (Session.get_history s <> [] -> calls <> [] ->
      Session.format_for_display (Session.run calls s)
      = Session.format_for_display s +:+ nl
        +:+ String.concat nl (map Session.line_of calls))
  /\ Session.get_history (Session.clear s) = []
  /\ Session.format_for_display (Session.clear s) = ""
  /\ Session.run calls (Session.clear s) = Session.run calls Session.new.
Proof.
  unfold Session.get_history. rewrite run_messages.
  split; [reflexivity|]. split; [by apply prefix_app_r|].
  split; [by rewrite length_app, length_map|].
  split; [|by repeat split].
  intros Hs Hc. rewrite !format_for_display_messages, run_messages, map_app.
  rewrite concat_app_nonempty.
  - do 2 f_equal. rewrite map_map. f_equal. apply map_ext. intros c.
    apply display_line_of.
  - by destruct (Session.messages s).
  - by destruct calls.
Qed.

(** ** The mock server *)

(** [split] reads a no-break space (U+00A0, the bytes C2 A0) and an
    ideographic space (U+3000, the bytes E3 80 80) as white space, and the
    copyright sign (U+00A9, the bytes C2 A9) as part of a word. *)
Example split_wide_spaces :
  split (String "a" (String (ascii_of_N 194) (String (ascii_of_N 160) "b")))
  = ["a"; "b"]
  /\ split (String "a" (String (ascii_of_N 227) (String (ascii_of_N 128)
              (String (ascii_of_N 128) "b"))))
     = ["a"; "b"]
  /\ split (String "a" (String (ascii_of_N 194) (String (ascii_of_N 169) "b")))
     = [String "a" (String (ascii_of_N 194) (String (ascii_of_N 169) "b"))].
Proof. repeat split. Qed.

Lemma split_mock_output (s : string) :
  split ("Mock response to: " +:+ s) = "Mock" :: "response" :: "to:" :: split s.
Proof. reflexivity. Qed.

(** X19. The mock server answers every request with the text
    "Mock response to: <input>", counts the words of the input as prompt
    tokens and three more as completion tokens, and gives an id "mock-<n>"
    with [n] between 0 and 9999; the requested model, [max_tokens], [stream]
    and [temperature] do not enter the answer. *)
Theorem mock_completion (hash : string -> Z) (request : MockMCP.CompletionRequest) :
  MockMCP.output (MockMCP.create_completion hash request)
  = "Mock response to: " +:+ MockMCP.input request
  /\ MockMCP.prompt (MockMCP.token_usage (MockMCP.create_completion hash request))
     = Z.of_nat (length (split (MockMCP.input request)))
  /\ MockMCP.completion (MockMCP.token_usage (MockMCP.create_completion hash request))
     = MockMCP.prompt (MockMCP.token_usage (MockMCP.create_completion hash request))
       + 3
  /\ (exists n, 0 <= n < 10000
                /\ MockMCP.id (MockMCP.create_completion hash request)
                   = "mock-" +:+ fmt_int n)
  /\ (forall other,
        MockMCP.input other = MockMCP.input request ->
        MockMCP.create_completion hash other
        = MockMCP.create_completion hash request).
Proof.
  unfold MockMCP.create_completion. cbv zeta. cbn [MockMCP.output MockMCP.prompt
    MockMCP.completion MockMCP.token_usage MockMCP.id].
  split; [reflexivity|]. split; [reflexivity|]. split; [|split].
  - rewrite split_mock_output. cbn [length]. lia.
  - exists (hash (MockMCP.input request) mod 10000). split; [|reflexivity].
    apply Z.mod_pos_bound. lia.
  - by intros other ->.
Qed.

Lemma mock_read_request {lax : Config.conversions}
    self prompt model max_tokens temperature :
  MockMCP.read_request lax
    (HTTPAdapter.payload self prompt model max_tokens temperature)
  = Ok {| MockMCP.model :=
            or_default (py_or model (Config.model (HTTPAdapter.config self)))
                       "default";
          MockMCP.input := prompt;
          MockMCP.max_tokens :=
            or_default (py_or max_tokens (Config.max_tokens (HTTPAdapter.config self)))
                       1024;
          MockMCP.stream := false;
          MockMCP.temperature := temperature |}.
Proof.
  unfold MockMCP.read_request, HTTPAdapter.payload, Config.field.
  destruct temperature as [t|]; by simplify_map_eq.
Qed.

(** X20. The generic adapter against the mock server.  For a provider whose
    base URL is the server's, [complete] returns, for every prompt and every
    option: the text "Mock response to: <prompt>", the requested model, a
    "mock-<n>" id, and a usage with the prompt's word count [w] as prompt
    tokens, [w + 3] completion tokens and [w + (w + 3)] in total. *)
Theorem http_adapter_against_mock_server (lax : Config.conversions)
    (hash : string -> Z) self prompt model max_tokens temperature :
  HTTPAdapter.complete
    (MockMCP.serve lax hash (Config.base_url (HTTPAdapter.config self)))
    self prompt model max_tokens temperature
  = Ok {| Base.id := PStr ("mock-" +:+ fmt_int (hash prompt mod 10000));
          Base.text := PStr ("Mock response to: " +:+ prompt);
          Base.model :=
            PStr (or_default (py_or model (Config.model (HTTPAdapter.config self)))
                             "default");
          Base.usage :=
            Some {| Base.prompt_tokens := PInt (Z.of_nat (length (split prompt)));
                    Base.completion_tokens :=
                      PInt (Z.of_nat (length (split prompt)) + 3);
                    Base.total_tokens :=
                      PInt (Z.of_nat (length (split prompt))
                            + (Z.of_nat (length (split prompt)) + 3)) |} |}.
Proof.
  set (request :=
         {| MockMCP.model :=
              or_default (py_or model (Config.model (HTTPAdapter.config self)))
                         "default";
            MockMCP.input := prompt;
            MockMCP.max_tokens :=
              or_default
                (py_or max_tokens (Config.max_tokens (HTTPAdapter.config self)))
                1024;
            MockMCP.stream := false;
            MockMCP.temperature := temperature |}).
  assert (Hsend :
    MockMCP.serve lax hash (Config.base_url (HTTPAdapter.config self))
      (HTTPAdapter.request self prompt model max_tokens temperature)
    = Ok (MockMCP.write_response (MockMCP.create_completion hash request))).
  { unfold MockMCP.serve. cbn [Http.url Http.json HTTPAdapter.request].
    by rewrite String.eqb_refl, mock_read_request. }
  assert (Hid : MockMCP.id (MockMCP.create_completion hash request)
                = "mock-" +:+ fmt_int (hash prompt mod 10000)) by reflexivity.
  destruct (mock_completion hash request) as (Hout & Hp & Hc & _ & _).
  change (MockMCP.input request) with prompt in Hout, Hp.
  revert Hsend Hid Hout Hp Hc.
  generalize (MockMCP.create_completion hash request). clear request.
  intros [i out [p c]] Hsend Hid Hout Hp Hc. simpl in Hid, Hout, Hp, Hc.
  unfold MockMCP.write_response in Hsend. simpl in Hsend.
  rewrite (http_complete_dict _ _ _ _ _ _ _ Hsend).
  rewrite (http_parse_usage_dict _
             (<["prompt" := PInt p]> (<["completion" := PInt c]> ∅)));
    [| by simplify_map_eq | apply insert_non_empty].
  assert (count (<["prompt" := PInt p]> (<["completion" := PInt c]> ∅)) "prompt"
          = PInt p) as -> by (unfold count; by simplify_map_eq).
  assert (count (<["prompt" := PInt p]> (<["completion" := PInt c]> ∅)) "completion"
          = PInt c) as -> by (unfold count; by simplify_map_eq).
  rewrite add_ints, !bind_Ok.
  assert ((<["id" := PStr i]>
             (<["output" := PStr out]>
                (<["token_usage" :=
                    PDict (<["prompt" := PInt p]> (<["completion" := PInt c]> ∅))]>
                   (∅ : gmap string pyval)))) !! "id" = Some (PStr i)) as ->
    by (by simplify_map_eq).
  assert ((<["id" := PStr i]>
             (<["output" := PStr out]>
                (<["token_usage" :=
                    PDict (<["prompt" := PInt p]> (<["completion" := PInt c]> ∅))]>
                   (∅ : gmap string pyval)))) !! "output" = Some (PStr out)) as ->
    by (by simplify_map_eq).
  simpl. by rewrite Hid, Hout, Hc, Hp.
Qed.

(** ** The session with Python's objects *)

Lemma omap_ext_elem {A B} (f g : A -> option B) (l : list A) :
  (forall x, x ∈ l -> f x = g x) -> omap f l = omap g l.
Proof.
  induction l as [|x l IH]; intros H; [reflexivity|].
  assert (IH' : omap f l = omap g l) by (apply IH; intros y Hy; apply H; set_solver).
  simpl. rewrite (H x) by set_solver.
  destruct (g x); [f_equal|]; exact IH'.
Qed.

Lemma omap_app_singleton {A B} (f : A -> option B) (l : list A) (x : A) (y : B) :
  f x = Some y -> omap f (l ++ [x])%list = (omap f l ++ [y])%list.
Proof. intros H. rewrite omap_app. simpl. by rewrite H. Qed.

Lemma fresh_list_not_used (st : SessionStore.store) (l : positive) :
  is_Some (SessionStore.lists st !! l) -> fresh (dom (SessionStore.lists st)) <> l.
Proof.
  intros Hl Heq. apply elem_of_dom in Hl. rewrite <- Heq in Hl.
  by apply is_fresh in Hl.
Qed.

Lemma fresh_object_not_used (st : SessionStore.store) (m : positive) :
  is_Some (SessionStore.objects st !! m) ->
  fresh (dom (SessionStore.objects st)) <> m.
Proof.
  intros Hm Heq. apply elem_of_dom in Hm. rewrite <- Heq in Hm.
  by apply is_fresh in Hm.
Qed.

Lemma add_message_view (st : SessionStore.store) (self : SessionStore.Session)
    (role content : string) :
  SessionStore.well_formed st ->
  is_Some (SessionStore.lists st !! SessionStore.messages self) ->
  let st' := SessionStore.list_append
               (SessionStore.Message_new st role content).1
               (SessionStore.messages self)
               (SessionStore.Message_new st role content).2 in
  SessionStore.well_formed st'
  /\ SessionStore.items st' (SessionStore.messages self)
     = (SessionStore.items st (SessionStore.messages self)
        ++ [{| Session.role := role; Session.content := content |}])%list
  /\ (forall l, l <> SessionStore.messages self ->
        SessionStore.lists st' !! l = SessionStore.lists st !! l
        /\ SessionStore.items st' l = SessionStore.items st l)
  /\ (forall m msg, SessionStore.objects st !! m = Some msg ->
        SessionStore.objects st' !! m = Some msg).
Proof.
  intros Hwf [refs Hrefs]. cbv zeta. simpl.
  set (m := fresh (dom (SessionStore.objects st))).
  set (msg := {| Session.role := role; Session.content := content |}).
  assert (Hfresh : SessionStore.objects st !! m = None).
  { apply not_elem_of_dom. apply is_fresh. }
  split; [|split; [|split]].
  - intros l refs' x Hl Hx. simpl in *.
    destruct (decide (l = SessionStore.messages self)) as [-> | Hne].
    + rewrite lookup_alter_eq, Hrefs in Hl. simpl in Hl. injection Hl as <-.
      apply elem_of_app in Hx as [Hx | Hx].
      * destruct (Hwf _ _ _ Hrefs Hx) as [y Hy]. exists y.
        rewrite lookup_insert_ne; [done|]. intros <-. congruence.
      * apply list_elem_of_singleton in Hx as ->. exists msg.
        apply lookup_insert_eq.
    + rewrite lookup_alter_ne in Hl by done.
      destruct (Hwf _ _ _ Hl Hx) as [y Hy]. exists y.
      rewrite lookup_insert_ne; [done|]. intros <-. congruence.
  - unfold SessionStore.items. simpl.
    rewrite lookup_alter_eq, Hrefs. simpl.
    rewrite (omap_app_singleton _ _ _ msg) by apply lookup_insert_eq.
    f_equal. apply omap_ext_elem. intros x Hx.
    apply lookup_insert_ne. intros <-.
    destruct (Hwf _ _ _ Hrefs Hx) as [y Hy]. congruence.
  - intros l Hne. unfold SessionStore.items. simpl.
    rewrite lookup_alter_ne by done. split; [reflexivity|].
    destruct (SessionStore.lists st !! l) as [refs'|] eqn:Hl; [|reflexivity]. simpl.
    apply omap_ext_elem. intros x Hx.
    apply lookup_insert_ne. intros <-.
    destruct (Hwf _ _ _ Hl Hx) as [y Hy]. congruence.
  - intros x y Hy. simpl. rewrite lookup_insert_ne; [done|]. intros <-. congruence.
Qed.

(** X21. The store embedding agrees with the value embedding and keeps its
    invariant: on a store where every reference of a list is to a message,
    and for a session whose list is in the store, each method leaves such a
    store, and the session read through the store changes as [Session]
    says: the two adding methods append the message, [clear] empties the
    session, [get_history] returns a list with the session's messages. *)
Theorem session_store_refines_session
    (st : SessionStore.store) (self : SessionStore.Session) (content : string) :
  SessionStore.well_formed st ->
  is_Some (SessionStore.lists st !! SessionStore.messages self) ->
  (SessionStore.well_formed (SessionStore.add_user_message st self content)
   /\ SessionStore.view (SessionStore.add_user_message st self content) self
      = Session.add_user_message (SessionStore.view st self) content)
  /\ (SessionStore.well_formed (SessionStore.add_assistant_message st self content)
      /\ SessionStore.view (SessionStore.add_assistant_message st self content) self
         = Session.add_assistant_message (SessionStore.view st self) content)
  /\ (SessionStore.well_formed (SessionStore.clear st self)
      /\ SessionStore.view (SessionStore.clear st self) self
         = Session.clear (SessionStore.view st self))
  /\ (SessionStore.well_formed (SessionStore.get_history st self).1
      /\ SessionStore.items (SessionStore.get_history st self).1
           (SessionStore.get_history st self).2
         = Session.get_history (SessionStore.view st self)
      /\ SessionStore.view (SessionStore.get_history st self).1 self
         = SessionStore.view st self).
Proof.
  intros Hwf Hself. split; [|split; [|split]].
  - destruct (add_message_view st self "user" content Hwf Hself) as (H1 & H2 & _).
    split; [exact H1|]. unfold SessionStore.view, Session.add_user_message.
    simpl. f_equal. exact H2.
  - destruct (add_message_view st self "assistant" content Hwf Hself) as (H1 & H2 & _).
    split; [exact H1|]. unfold SessionStore.view, Session.add_assistant_message.
    simpl. f_equal. exact H2.
  - destruct Hself as [refs Hrefs]. split.
    + intros l refs' x Hl Hx. simpl in *.
      destruct (decide (l = SessionStore.messages self)) as [-> | Hne].
      * rewrite lookup_alter_eq, Hrefs in Hl. simpl in Hl. injection Hl as <-.
        by apply elem_of_nil in Hx.
      * rewrite lookup_alter_ne in Hl by done. by eapply Hwf.
    + unfold SessionStore.view, SessionStore.items, Session.clear. simpl.
      by rewrite lookup_alter_eq, Hrefs.
  - pose proof (fresh_list_not_used st _ Hself) as Hfresh.
    destruct Hself as [refs Hrefs]. simpl. split; [|split].
    + intros l refs' x Hl Hx. simpl in *.
      destruct (decide (fresh (dom (SessionStore.lists st)) = l)) as [<- | Hne].
      * rewrite lookup_insert_eq, Hrefs in Hl. simpl in Hl. injection Hl as <-.
        by eapply Hwf.
      * rewrite lookup_insert_ne in Hl by done. by eapply Hwf.
    + unfold SessionStore.items, Session.get_history, SessionStore.view. simpl.
      by rewrite lookup_insert_eq, Hrefs.
    + unfold SessionStore.view, SessionStore.items. simpl.
      by rewrite lookup_insert_ne.
Qed.

Lemma omap_lookup_total {A B} (f : A -> option B) (l : list A) (i : nat) :
  (forall x, x ∈ l -> is_Some (f x)) -> omap f l !! i = l !! i ≫= f.
Proof.
  revert i. induction l as [|x l IH]; intros i H; [reflexivity|].
  destruct (H x) as [y Hy]; [set_solver|]. simpl. rewrite Hy.
  destruct i as [|i]; simpl; [by rewrite Hy|].
  apply IH. intros z Hz. apply H. set_solver.
Qed.

(** X22. [get_history] returns a list of its own.  For a session whose list
    is in the store, the returned list is another object than the
    session's: appending to it or clearing it leaves the session's messages
    as they were, and what the session does afterwards ([add_user_message],
    [add_assistant_message], [clear]) leaves the returned list as it was. *)
Theorem get_history_returns_a_copy
    (st : SessionStore.store) (self : SessionStore.Session) :
  is_Some (SessionStore.lists st !! SessionStore.messages self) ->
  (SessionStore.get_history st self).2 <> SessionStore.messages self
  /\ (forall x,
        SessionStore.view
          (SessionStore.list_append (SessionStore.get_history st self).1
             (SessionStore.get_history st self).2 x)
          self
        = SessionStore.view st self)
  /\ SessionStore.view
       (SessionStore.list_clear (SessionStore.get_history st self).1
          (SessionStore.get_history st self).2)
       self
     = SessionStore.view st self
  /\ (forall content,
        SessionStore.lists
          (SessionStore.add_user_message (SessionStore.get_history st self).1
             self content)
          !! (SessionStore.get_history st self).2
        = SessionStore.lists st !! SessionStore.messages self
        /\ SessionStore.lists
             (SessionStore.add_assistant_message (SessionStore.get_history st self).1
                self content)
             !! (SessionStore.get_history st self).2
           = SessionStore.lists st !! SessionStore.messages self
        /\ (SessionStore.well_formed st ->
            SessionStore.items
              (SessionStore.add_user_message (SessionStore.get_history st self).1
                 self content)
              (SessionStore.get_history st self).2
            = SessionStore.items st (SessionStore.messages self)))
  /\ SessionStore.items
       (SessionStore.clear (SessionStore.get_history st self).1 self)
       (SessionStore.get_history st self).2
     = SessionStore.items st (SessionStore.messages self).
Proof.
  intros Hself. pose proof (fresh_list_not_used st _ Hself) as Hfresh.
  destruct Hself as [refs Hrefs]. simpl.
  split; [exact Hfresh|]. split; [|split; [|split]].
  - intros x. unfold SessionStore.view, SessionStore.items. simpl.
    by rewrite lookup_alter_ne, lookup_insert_ne.
  - unfold SessionStore.view, SessionStore.items. simpl.
    by rewrite lookup_alter_ne, lookup_insert_ne.
  - intros content. unfold SessionStore.add_user_message,
      SessionStore.add_assistant_message. simpl.
    rewrite !lookup_alter_ne, !lookup_insert_eq, Hrefs by done.
    split; [reflexivity|]. split; [reflexivity|].
    intros Hwf. unfold SessionStore.items. simpl.
    rewrite lookup_alter_ne, lookup_insert_eq, Hrefs by done. simpl.
    apply omap_ext_elem. intros m Hm.
    apply lookup_insert_ne, fresh_object_not_used. by eapply Hwf.
  - unfold SessionStore.items. simpl.
    by rewrite lookup_alter_ne, lookup_insert_eq, Hrefs.
Qed.

(** X23. The copy is shallow: the returned list holds the session's message
    objects themselves, so assigning the content of a message reached
    through the returned list changes the message of the session at the same
    position. *)
Theorem get_history_shares_messages
    (st : SessionStore.store) (self : SessionStore.Session)
    (refs : list positive) (i : nat) (m : positive) (msg : Session.Message) :
  SessionStore.well_formed st ->
  SessionStore.lists st !! SessionStore.messages self = Some refs ->
  refs !! i = Some m ->
  SessionStore.objects st !! m = Some msg ->
  SessionStore.lists (SessionStore.get_history st self).1
    !! (SessionStore.get_history st self).2
  = Some refs
  /\ SessionStore.items st (SessionStore.messages self) !! i = Some msg
  /\ forall content,
       SessionStore.items
         (SessionStore.set_content (SessionStore.get_history st self).1 m content)
         (SessionStore.messages self) !! i
       = Some {| Session.role := Session.role msg; Session.content := content |}.
Proof.
  intros Hwf Hrefs Hi Hm.
  assert (Hfresh : fresh (dom (SessionStore.lists st)) <> SessionStore.messages self)
    by (apply fresh_list_not_used; eauto).
  simpl. split; [by rewrite lookup_insert_eq, Hrefs|]. split.
  - unfold SessionStore.items. rewrite Hrefs. simpl.
    rewrite omap_lookup_total by (intros x Hx; by eapply Hwf).
    rewrite Hi. simpl. exact Hm.
  - intros content. unfold SessionStore.items. simpl.
    rewrite lookup_insert_ne, Hrefs by done. simpl.
    rewrite omap_lookup_total.
    + rewrite Hi. simpl. by rewrite lookup_alter_eq, Hm.
    + intros x Hx. destruct (Hwf _ _ _ Hrefs Hx) as [y Hy].
      destruct (decide (m = x)) as [<- | Hne].
      * rewrite lookup_alter_eq, Hm. by eexists.
      * rewrite lookup_alter_ne by done. by eexists.
Qed.

(** X24. Sessions made one after the other have lists of their own (the
    default factory makes a new list each time): adding a message to the
    first leaves the second empty. *)
Theorem new_sessions_are_independent (st : SessionStore.store) (content : string) :
  SessionStore.well_formed st ->
  (SessionStore.new st).2 <> (SessionStore.new (SessionStore.new st).1).2
  /\ SessionStore.view (SessionStore.new st).1 (SessionStore.new st).2 = Session.new
  /\ SessionStore.view
       (SessionStore.add_user_message (SessionStore.new (SessionStore.new st).1).1
          (SessionStore.new st).2 content)
       (SessionStore.new st).2
     = Session.add_user_message Session.new content
  /\ SessionStore.view
       (SessionStore.add_user_message (SessionStore.new (SessionStore.new st).1).1
          (SessionStore.new st).2 content)
       (SessionStore.new (SessionStore.new st).1).2
     = Session.new.
Proof.
  intros Hwf.
  set (l1 := fresh (dom (SessionStore.lists st))).
  set (st1 := (SessionStore.new st).1).
  set (l2 := fresh (dom (SessionStore.lists st1))).
  set (st2 := (SessionStore.new st1).1).
  assert (Hl1 : SessionStore.lists st1 !! l1 = Some []) by apply lookup_insert_eq.
  assert (Hne : l2 <> l1) by (apply fresh_list_not_used; rewrite Hl1; eauto).
  assert (Hl2 : SessionStore.lists st2 !! l2 = Some []) by apply lookup_insert_eq.
  assert (Hl1' : SessionStore.lists st2 !! l1 = Some []).
  { unfold st2. simpl. fold l2. by rewrite lookup_insert_ne. }
  assert (Hwf2 : SessionStore.well_formed st2).
  { intros l refs x Hl Hx. unfold st2, st1 in Hl. simpl in Hl. fold l1 in Hl.
    fold st1 in Hl. fold l2 in Hl.
    destruct (decide (l2 = l)) as [<- | Hn2].
    - rewrite lookup_insert_eq in Hl. injection Hl as <-. by apply elem_of_nil in Hx.
    - rewrite lookup_insert_ne in Hl by done.
      destruct (decide (l1 = l)) as [<- | Hn1].
      + rewrite lookup_insert_eq in Hl. injection Hl as <-.
        by apply elem_of_nil in Hx.
      + rewrite lookup_insert_ne in Hl by done. by eapply Hwf. }
  split; [|split; [|split]].
  - intros H. apply Hne. by injection H.
  - unfold SessionStore.view, SessionStore.items, Session.new. simpl. fold l1.
    by rewrite lookup_insert_eq.
  - destruct (add_message_view st2 {| SessionStore.messages := l1 |} "user" content
                Hwf2) as (_ & H & _); [exists []; exact Hl1'|].
    unfold SessionStore.view, Session.add_user_message. f_equal.
    etransitivity; [exact H|].
    unfold SessionStore.items. cbn [SessionStore.messages]. by rewrite Hl1'.
  - destruct (add_message_view st2 {| SessionStore.messages := l1 |} "user" content
                Hwf2) as (_ & _ & H & _); [exists []; exact Hl1'|].
    unfold SessionStore.view, Session.new. f_equal.
    destruct (H l2 Hne) as [_ H2].
    etransitivity; [exact H2|].
    unfold SessionStore.items. by rewrite Hl2.
Qed.

Lemma hello_store_well_formed : SessionStore.well_formed Tests.hello_store.
Proof.
  apply (add_message_view Tests.fresh_session.1 Tests.fresh_session.2 "user" "Hello").
  - intros l refs x Hl Hx. simpl in Hl.
    destruct (decide (fresh (dom (∅ : gmap positive (list positive))) = l))
      as [<- | Hne].
    + rewrite lookup_insert_eq in Hl. injection Hl as <-. by apply elem_of_nil in Hx.
    + rewrite lookup_insert_ne in Hl by done. by rewrite lookup_empty in Hl.
  - by exists [].
Qed.

Lemma session_store_refines_session_witness :
  SessionStore.view
    (SessionStore.add_assistant_message Tests.hello_store Tests.fresh_session.2
       "Hi there!")
    Tests.fresh_session.2
  = Session.add_assistant_message
      (SessionStore.view Tests.hello_store Tests.fresh_session.2) "Hi there!".
Proof.
  exact (proj2 (proj1 (proj2 (session_store_refines_session
                                Tests.hello_store Tests.fresh_session.2 "Hi there!"
                                hello_store_well_formed
                                (ex_intro _ [1%positive] eq_refl))))).
Defined.

Lemma get_history_returns_a_copy_witness :
  (SessionStore.get_history Tests.hello_store Tests.fresh_session.2).2
  <> SessionStore.messages Tests.fresh_session.2
  /\ SessionStore.view
       (SessionStore.list_clear
          (SessionStore.get_history Tests.hello_store Tests.fresh_session.2).1
          (SessionStore.get_history Tests.hello_store Tests.fresh_session.2).2)
       Tests.fresh_session.2
     = SessionStore.view Tests.hello_store Tests.fresh_session.2.
Proof.
  destruct (get_history_returns_a_copy Tests.hello_store Tests.fresh_session.2
              (ex_intro _ [1%positive] eq_refl)) as (H1 & _ & H2 & _).
  split; [exact H1 | exact H2].
Defined.

Lemma get_history_shares_messages_witness :
  SessionStore.items
    (SessionStore.set_content
       (SessionStore.get_history Tests.hello_store Tests.fresh_session.2).1
       1%positive "changed")
    (SessionStore.messages Tests.fresh_session.2) !! 0%nat
  = Some {| Session.role := "user"; Session.content := "changed" |}.
Proof.
  exact (proj2 (proj2 (get_history_shares_messages
                         Tests.hello_store Tests.fresh_session.2
                         [1%positive] 0 1%positive
                         {| Session.role := "user"; Session.content := "Hello" |}
                         hello_store_well_formed eq_refl eq_refl eq_refl))
           "changed").
Defined.

Lemma new_sessions_are_independent_witness :
  SessionStore.view
    (SessionStore.add_user_message
       (SessionStore.new (SessionStore.new Tests.hello_store).1).1
       (SessionStore.new Tests.hello_store).2 "Hello")
    (SessionStore.new (SessionStore.new Tests.hello_store).1).2
  = Session.new.
Proof.
  exact (proj2 (proj2 (proj2 (new_sessions_are_independent Tests.hello_store "Hello"
                                hello_store_well_formed)))).
Defined.
